(** * MCP API Converter: the tool invocation gateway

    A shallow embedding of [src/core/BaseTool.ts], [src/core/MCPServer.ts]
    and [src/core/HTTPTransport.ts], with the fragment of the JavaScript
    runtime and of the zod validation library that these files rely on;
    then of [src/utils/Logger.ts], of the configuration that [src/index.ts]
    checks at start-up and of the file names that
    [src/utils/DocumentationGenerator.ts] makes.

    Conventions of the embedding.
    - A JavaScript value is a [JS.Value].  Plain objects and [Record]s are
      association lists in property order; a key occurs once in a
      JavaScript object, and the lemmas that need it say so
      ([distinct], [wellFormed]).
    - A decoded object has [Object.prototype] as its prototype.  The
      transport reads keys that this prototype does not have, so that
      [JS.prop], the own property, is what it gets; the validator reads
      whatever key a schema declares, and gets the inherited member when
      the object has none of its own ([Zod.read]).  Assigning to the key
      [__proto__] of a fresh object adds no property ([JS.assign]).
    - Numbers carry an integer: the gateway only looks at a number's
      [typeof] tag, at its truthiness and at its rendering in a message.
    - A function that can throw returns [Thrown + A]; the methods of
      [MCPServer] and [HTTPTransport], which share the tool map, live in the
      state-and-exception monad [M] over that map.
    - [async] functions are run to completion: one request is handled at a
      time, a promise is its settled outcome.
    - Calls to [Logger] from the gateway are left out: the logger is
      write-only, nothing it does flows back into a response or into the
      tool map.  The logger is modelled on its own. *)

From Stdlib Require Import String Ascii List ZArith Bool Lia Permutation.
From Stdlib Require Import DecimalString.
Import ListNotations.

Set Warnings "-register-all".

Local Open Scope string_scope.
Local Open Scope list_scope.

Notation "a ^^ b" := (String.append a b) (at level 60, right associativity).

(* ================================================================== *)
(** ** The JavaScript fragment *)

Module JS.

Inductive Value : Type :=
| VUndefined
| VNull
| VBool (b : bool)
| VNumber (n : Z)
| VString (s : string)
| VArray (elements : list Value)
| VObject (entries : list (string * Value)).

(** The classes of [Error] the gateway meets, and what a [throw] carries. *)
Inductive ErrorClass := Error | SyntaxError | TypeError.

Inductive Thrown : Type :=
| Throw (class : ErrorClass) (message : string)
| ThrowValue (v : Value).

(** [error instanceof Error], [error instanceof SyntaxError]. *)
Definition instanceofError (t : Thrown) : bool :=
  match t with Throw _ _ => true | ThrowValue _ => false end.

Definition instanceofSyntaxError (t : Thrown) : bool :=
  match t with Throw SyntaxError _ => true | _ => false end.

(** Own-property lookup in an object, first binding of the key. *)
Fixpoint own {A : Type} (o : list (string * A)) (k : string) : option A :=
  match o with
  | [] => None
  | (k', v) :: rest => if String.eqb k' k then Some v else own rest k
  end.

Definition hasOwn {A : Type} (o : list (string * A)) (k : string) : bool :=
  match own o k with Some _ => true | None => false end.

(** The object with its own property [k] set to [v]: an existing property
    keeps its place, a new one goes last. *)
Fixpoint set {A : Type} (o : list (string * A)) (k : string) (v : A)
  : list (string * A) :=
  match o with
  | [] => [(k, v)]
  | (k', v') :: rest =>
      if String.eqb k' k then (k', v) :: rest else (k', v') :: set rest k v
  end.

(** [o[k] = v] on an object whose prototype is [Object.prototype].  The
    name [__proto__] is an accessor of that prototype: unless the object
    has a property of its own under that name, assigning to it changes the
    prototype of the object (when [v] is an object) and adds no property. *)
Definition assign {A : Type} (o : list (string * A)) (k : string) (v : A)
  : list (string * A) :=
  if String.eqb k "__proto__" && negb (hasOwn o k) then o else set o k v.

Definition keys {A : Type} (o : list (string * A)) : list string := map fst o.
Definition values {A : Type} (o : list (string * A)) : list A := map snd o.

(** The members of [Object.prototype] that are functions; with the
    accessor [__proto__] they are all its string-named members. *)
Definition prototypeFunctions : list string :=
  ["constructor"; "__defineGetter__"; "__defineSetter__"; "hasOwnProperty";
   "__lookupGetter__"; "__lookupSetter__"; "isPrototypeOf";
   "propertyIsEnumerable"; "toString"; "valueOf"; "toLocaleString"].

(** The own property [k] of an object, [undefined] when there is none. *)
Definition prop (o : list (string * Value)) (k : string) : Value :=
  match own o k with Some v => v | None => VUndefined end.

(** [v.k] for the keys the transport reads ([method], [params], [name],
    [arguments]): a [TypeError] on [null] and [undefined], [undefined] on
    primitives and arrays, which have no such member. *)
Definition Get (v : Value) (k : string) : Thrown + Value :=
  match v with
  | VUndefined =>
      inl (Throw TypeError
             ("Cannot read properties of undefined (reading '" ^^ k ^^ "')"))
  | VNull =>
      inl (Throw TypeError
             ("Cannot read properties of null (reading '" ^^ k ^^ "')"))
  | VObject o => inr (prop o k)
  | _ => inr VUndefined
  end.

(** [const { k } = v], [source] being the text of [v] in the program. *)
Definition Destructure (v : Value) (source k : string) : Thrown + Value :=
  match v with
  | VUndefined =>
      inl (Throw TypeError
             ("Cannot destructure property '" ^^ k ^^ "' of '" ^^ source
              ^^ "' as it is undefined."))
  | VNull =>
      inl (Throw TypeError
             ("Cannot destructure property '" ^^ k ^^ "' of '" ^^ source
              ^^ "' as it is null."))
  | VObject o => inr (prop o k)
  | _ => inr VUndefined
  end.

(** [v?.k] *)
Definition GetOptional (v : Value) (k : string) : Value :=
  match v with
  | VObject o => prop o k
  | _ => VUndefined
  end.

(** ToBoolean. *)
Definition truthy (v : Value) : bool :=
  match v with
  | VUndefined | VNull => false
  | VBool b => b
  | VNumber n => negb (Z.eqb n 0)
  | VString s => negb (String.eqb s "")
  | VArray _ | VObject _ => true
  end.

(** [a || b] *)
Definition or (a b : Value) : Value := if truthy a then a else b.

(** [v === 'literal'] *)
Definition strictEq (v : Value) (literal : string) : bool :=
  match v with
  | VString s => String.eqb s literal
  | _ => false
  end.

(** [error.message] of a caught [Error]. *)
Definition messageOf (t : Thrown) : string :=
  match t with
  | Throw _ m => m
  | ThrowValue _ => ""
  end.

(** ToString, as a template literal applies it.  An object answers with
    [Object.prototype.toString] unless an own [toString] property, which is
    never callable in decoded JSON, hides it; an array joins its elements. *)
Fixpoint ToString (v : Value) : Thrown + string :=
  match v with
  | VUndefined => inr "undefined"
  | VNull => inr "null"
  | VBool true => inr "true"
  | VBool false => inr "false"
  | VNumber n => inr (NilZero.string_of_int (Z.to_int n))
  | VString s => inr s
  | VArray l =>
      (fix join (l : list Value) : Thrown + string :=
         match l with
         | [] => inr ""
         | x :: rest =>
             match
               match x with
               | VUndefined | VNull => inr ""
               | _ => ToString x
               end
             with
             | inl t => inl t
             | inr s =>
                 match rest with
                 | [] => inr s
                 | _ :: _ =>
                     match join rest with
                     | inl t => inl t
                     | inr tail => inr (s ^^ "," ^^ tail)
                     end
                 end
             end
         end) l
  | VObject o =>
      if hasOwn o "toString"
      then inl (Throw TypeError "Cannot convert object to primitive value")
      else inr "[object Object]"
  end.

End JS.

Import JS.

(* ================================================================== *)
(** ** The zod fragment

    The schemas [BaseTool] builds ([z.string], [z.number], [z.boolean],
    [z.any], [z.array], [z.object], [z.record], [.optional]) and what
    [parse] reports on them in zod 3.  [parse] throws a [ZodError] holding one issue
    per violation; it is modelled by the list of issues, empty on success. *)

Module Zod.

Inductive ZodType : Type :=
| ZString
| ZNumber
| ZBoolean
| ZAny
| ZArray (element : ZodType)
| ZObject (shape : list (string * ZodType))
| ZRecord (valueType : ZodType)
| ZOptional (inner : ZodType).

Inductive ZodParsedType :=
| PUndefined | PNull | PBoolean | PNumber | PString | PArray | PObject
| PFunction.

(** What a validator can be handed: a decoded value or, when an object
    schema reads a key that the data does not have of its own, what the
    data inherits under that key, a function or [Object.prototype]. *)
Inductive Data : Type :=
| Plain (v : Value)
| FunctionValue
| ObjectPrototype.

Coercion Plain : Value >-> Data.

Definition getParsedType (data : Data) : ZodParsedType :=
  match data with
  | Plain VUndefined => PUndefined
  | Plain VNull => PNull
  | Plain (VBool _) => PBoolean
  | Plain (VNumber _) => PNumber
  | Plain (VString _) => PString
  | Plain (VArray _) => PArray
  | Plain (VObject _) => PObject
  | FunctionValue => PFunction
  | ObjectPrototype => PObject
  end.

(** [data[k]] for a decoded object that has no property [k] of its own:
    the member of [Object.prototype] under that name. *)
Definition inherited (k : string) : Data :=
  if String.eqb k "__proto__" then ObjectPrototype
  else if existsb (String.eqb k) prototypeFunctions then FunctionValue
  else Plain VUndefined.

(** [data[k]] for a decoded object: the property of its own, or else the
    inherited one. *)
Definition read (o : list (string * Value)) (k : string) : Data :=
  match own o k with
  | Some v => Plain v
  | None => inherited k
  end.

(** [Object.prototype[k]] ([Object.prototype.__proto__] is [null]). *)
Definition readPrototype (k : string) : Data :=
  if String.eqb k "__proto__" then Plain VNull
  else if existsb (String.eqb k) prototypeFunctions then FunctionValue
  else Plain VUndefined.

Inductive PathSegment := Key (k : string) | Index (i : nat).

(** An [invalid_type] issue, the only code these schemas can raise. *)
Record ZodIssue := mkIssue {
  path : list PathSegment;
  expected : ZodParsedType;
  received : ZodParsedType
}.

Definition invalid_type (p : list PathSegment) (e : ZodParsedType)
  (data : Data) : list ZodIssue :=
  [mkIssue p e (getParsedType data)].

(** The issues of [schema.parse(data)], [p] being the path of [data].  An
    object schema reads [data[key]] for each key of its shape, through the
    prototype chain, and leaves every other key of [data] alone (unknown
    keys are stripped from the output, not reported).  A record schema
    goes through the enumerable keys of the data; [Object.prototype] has
    none. *)
Fixpoint issues (t : ZodType) (p : list PathSegment) (data : Data)
  : list ZodIssue :=
  match t with
  | ZString =>
      match data with
      | Plain (VString _) => []
      | _ => invalid_type p PString data
      end
  | ZNumber =>
      match data with
      | Plain (VNumber _) => []
      | _ => invalid_type p PNumber data
      end
  | ZBoolean =>
      match data with
      | Plain (VBool _) => []
      | _ => invalid_type p PBoolean data
      end
  | ZAny => []
  | ZOptional inner =>
      match data with
      | Plain VUndefined => []
      | _ => issues inner p data
      end
  | ZArray element =>
      match data with
      | Plain (VArray l) =>
          (fix each (i : nat) (l : list Value) : list ZodIssue :=
             match l with
             | [] => []
             | x :: rest =>
                 issues element (p ++ [Index i]) (Plain x) ++ each (S i) rest
             end) 0%nat l
      | _ => invalid_type p PArray data
      end
  | ZObject shape =>
      match data with
      | Plain (VObject o) =>
          flat_map
            (fun kv => issues (snd kv) (p ++ [Key (fst kv)]) (read o (fst kv)))
            shape
      | ObjectPrototype =>
          flat_map
            (fun kv =>
               issues (snd kv) (p ++ [Key (fst kv)]) (readPrototype (fst kv)))
            shape
      | _ => invalid_type p PObject data
      end
  | ZRecord valueType =>
      match data with
      | Plain (VObject o) =>
          flat_map
            (fun kv => issues valueType (p ++ [Key (fst kv)]) (Plain (snd kv)))
            o
      | ObjectPrototype => []
      | _ => invalid_type p PObject data
      end
  end.

(** [schema.parse(data)]: the [ZodError] it throws, if any.  (The value it
    returns otherwise is not used by the gateway.) *)
Definition parse (t : ZodType) (data : Value) : option (list ZodIssue) :=
  match issues t [] (Plain data) with
  | [] => None
  | i :: rest => Some (i :: rest)
  end.

(** Whether [parse] goes through, by recursion on the schema. *)
Fixpoint accepts (t : ZodType) (data : Data) : bool :=
  match t with
  | ZString => match data with Plain (VString _) => true | _ => false end
  | ZNumber => match data with Plain (VNumber _) => true | _ => false end
  | ZBoolean => match data with Plain (VBool _) => true | _ => false end
  | ZAny => true
  | ZOptional inner =>
      match data with Plain VUndefined => true | _ => accepts inner data end
  | ZArray element =>
      match data with
      | Plain (VArray l) => forallb (fun x => accepts element (Plain x)) l
      | _ => false
      end
  | ZObject shape =>
      match data with
      | Plain (VObject o) =>
          forallb (fun kv => accepts (snd kv) (read o (fst kv))) shape
      | ObjectPrototype =>
          forallb (fun kv => accepts (snd kv) (readPrototype (fst kv))) shape
      | _ => false
      end
  | ZRecord valueType =>
      match data with
      | Plain (VObject o) =>
          forallb (fun kv => accepts valueType (Plain (snd kv))) o
      | ObjectPrototype => true
      | _ => false
      end
  end.

End Zod.

Import Zod.

(* ================================================================== *)
(** ** State and exceptions *)

Module Effect.

Section Monad.
Variable S : Type.

Definition M (A : Type) : Type := S -> (Thrown + A) * S.

Definition ret {A : Type} (a : A) : M A := fun s => (inr a, s).

Definition throw {A : Type} (t : Thrown) : M A := fun s => (inl t, s).

Definition bind {A B : Type} (m : M A) (f : A -> M B) : M B :=
  fun s =>
    match m s with
    | (inr a, s') => f a s'
    | (inl t, s') => (inl t, s')
    end.

(** [try { m } catch (error) { handler error }] *)
Definition try_catch {A : Type} (m : M A) (handler : Thrown -> M A) : M A :=
  fun s =>
    match m s with
    | (inr a, s') => (inr a, s')
    | (inl t, s') => handler t s'
    end.

(** Running a computation that does not touch the state. *)
Definition lift {A : Type} (x : Thrown + A) : M A := fun s => (x, s).

Definition get : M S := fun s => (inr s, s).
Definition put (s : S) : M unit := fun _ => (inr tt, s).
End Monad.

Arguments ret {S A} a.
Arguments throw {S A} t.
Arguments bind {S A B} m f.
Arguments try_catch {S A} m handler.
Arguments lift {S A} x.
Arguments get {S}.
Arguments put {S} s.

End Effect.

Import Effect.

Notation "x <- m ;; k" := (bind m (fun x => k))
  (at level 61, m at next level, right associativity).
Notation "m ;;; k" := (bind m (fun _ => k))
  (at level 61, right associativity).

(* ================================================================== *)
(** ** src/types/index.ts *)

(** [SchemaProperty].  [type] is optional here because [BaseTool] declares
    its properties as [Record<string, any>] and gives a property without a
    known [type] a meaning of its own. *)
Inductive SchemaProperty : Type := mkSchemaProperty {
  type : option string;
  description : option string;
  enum : option (list string);
  items : option SchemaProperty;
  properties : option (list (string * SchemaProperty));
  required : option (list string)
}.

Record ToolDefinition := mkToolDefinition {
  td_name : string;
  td_description : string;
  td_inputSchema : SchemaProperty
}.

Record MCPError := mkMCPError {
  code : Z;
  message : string
}.

(** [MCPResponse]: both members are optional in the interface. *)
Record MCPResponse := mkMCPResponse {
  result : option Value;
  error : option MCPError
}.

(** A schema and a tool definition as the JavaScript objects they are. *)
Definition member {A : Type} (k : string) (f : A -> Value) (x : option A)
  : list (string * Value) :=
  match x with
  | Some a => [(k, f a)]
  | None => []
  end.

Definition strings (l : list string) : Value := VArray (map VString l).

Fixpoint SchemaProperty_value (s : SchemaProperty) : Value :=
  match s with
  | mkSchemaProperty ty desc en its props req =>
      VObject
        (member "type" VString ty
         ++ member "description" VString desc
         ++ member "enum" strings en
         ++ match its with
            | Some it => [("items", SchemaProperty_value it)]
            | None => []
            end
         ++ match props with
            | Some ps =>
                [("properties",
                  VObject (map (fun kp => (fst kp, SchemaProperty_value (snd kp)))
                               ps))]
            | None => []
            end
         ++ member "required" strings req)
  end.

Definition ToolDefinition_value (d : ToolDefinition) : Value :=
  VObject [("name", VString (td_name d));
           ("description", VString (td_description d));
           ("inputSchema", SchemaProperty_value (td_inputSchema d))].

(* ================================================================== *)
(** ** src/core/BaseTool.ts *)

(** The [switch] of [convertPropertyToZod] compares [prop.type] with string
    literals; an absent [type] meets none of them. *)
Definition typeIs (ty : option string) (literal : string) : bool :=
  match ty with
  | Some t => String.eqb t literal
  | None => false
  end.

(** [schema.required?.includes(key)], [undefined] counting as [false]. *)
Definition requiredIncludes (req : option (list string)) (key : string) : bool :=
  match req with
  | Some l => existsb (String.eqb key) l
  | None => false
  end.

(** [Object.entries(o || {})] *)
Definition entriesOrEmpty {A : Type} (o : option (list (string * A)))
  : list (string * A) :=
  match o with
  | Some l => l
  | None => []
  end.

Fixpoint convertPropertyToZod (prop : SchemaProperty) : ZodType :=
  match prop with
  | mkSchemaProperty ty _ _ its props _ =>
      if typeIs ty "string" then ZString
      else if typeIs ty "number" then ZNumber
      else if typeIs ty "boolean" then ZBoolean
      else if typeIs ty "array" then
        match its with
        | Some it => ZArray (convertPropertyToZod it)
        | None => ZArray ZAny
        end
      else if typeIs ty "object" then
        match props with
        | Some ps =>
            ZObject
              (fold_left
                 (fun shape kn =>
                    JS.assign shape (fst kn) (convertPropertyToZod (snd kn)))
                 ps [])
        | None => ZRecord ZAny
        end
      else ZAny
  end.

Definition jsonSchemaToZod (schema : SchemaProperty) : ZodType :=
  if typeIs (type schema) "object" then
    ZObject
      (fold_left
         (fun shape kp =>
            let key := fst kp in
            let zodProp := convertPropertyToZod (snd kp) in
            let zodProp :=
              if negb (requiredIncludes (required schema) key)
              then ZOptional zodProp
              else zodProp in
            JS.assign shape key zodProp)
         (entriesOrEmpty (properties schema)) [])
  else ZAny.

(** The abstract members of [BaseTool].  [execute] settles to a value or
    rejects with what the tool threw. *)
Record BaseTool := mkTool {
  name : string;
  tool_description : string;
  inputSchema : SchemaProperty;
  execute : Value -> Thrown + Value
}.

Definition getToolDefinition (this : BaseTool) : ToolDefinition :=
  {| td_name := name this;
     td_description := tool_description this;
     td_inputSchema := inputSchema this |}.

(** [validate]: [true] when [parse] returns, [false] when it throws. *)
Definition validate (this : BaseTool) (params : Value) : bool :=
  let zodSchema := jsonSchemaToZod (inputSchema this) in
  match parse zodSchema params with
  | None => true
  | Some _ => false
  end.

(* ================================================================== *)
(** ** src/core/MCPServer.ts *)

(** [Map<string, BaseTool>], in insertion order. *)
Module Map.
Definition t (V : Type) : Type := list (string * V).
Definition empty {V : Type} : t V := [].
Definition has {V : Type} (m : t V) (k : string) : bool := JS.hasOwn m k.
Definition get {V : Type} (m : t V) (k : string) : option V := JS.own m k.
Definition set {V : Type} (m : t V) (k : string) (v : V) : t V := JS.set m k v.
Definition size {V : Type} (m : t V) : nat := length m.
Definition keys {V : Type} (m : t V) : list string := JS.keys m.
Definition values {V : Type} (m : t V) : list V := JS.values m.

(** [get] with whatever value the caller passes as key: only a string is
    the same value as a key of the map. *)
Definition getValue {V : Type} (m : t V) (k : Value) : option V :=
  match k with
  | VString s => get m s
  | _ => None
  end.
End Map.

(** The state of an [MCPServer]: its private [tools]. *)
Definition Tools : Type := Map.t BaseTool.

Definition MCPServer_new : Tools := Map.empty.

Definition registerTool (tool : BaseTool) : M Tools unit :=
  tools <- get ;;
  if Map.has tools (name tool) then
    let errorMsg := "Tool with name '" ^^ name tool ^^ "' is already registered" in
    throw (Throw Error errorMsg)
  else
    put (Map.set tools (name tool) tool).

Definition listTools : M Tools (list ToolDefinition) :=
  tools <- get ;;
  ret (map (fun tool => getToolDefinition tool) (Map.values tools)).

Definition executeTool (name : Value) (params : Value) : M Tools Value :=
  tools <- get ;;
  match Map.getValue tools name with
  | None =>
      shown <- lift (ToString name) ;;
      let errorMsg := "Tool '" ^^ shown ^^ "' not found" in
      throw (Throw Error errorMsg)
  | Some tool =>
      if negb (validate tool params) then
        shown <- lift (ToString name) ;;
        let errorMsg := "Invalid parameters for tool '" ^^ shown ^^ "'" in
        throw (Throw Error errorMsg)
      else
        try_catch
          (result <- lift (execute tool params) ;;
           ret result)
          (fun error => throw error)
  end.

Definition getToolCount : M Tools nat :=
  tools <- get ;;
  ret (Map.size tools).

Definition hasTool (name : string) : M Tools bool :=
  tools <- get ;;
  ret (Map.has tools name).

(* ================================================================== *)
(** ** src/core/HTTPTransport.ts *)

(** What [handleRequest] writes to [res]: the status and the body.  The
    health report is kept to its tool count (its time stamp is the clock's). *)
Inductive HttpBody :=
| NoBody
| HealthStatus (toolCount : nat)
| MCPBody (response : MCPResponse).

Record HttpResponse := mkHttpResponse {
  statusCode : Z;
  body : HttpBody
}.

(** [parseMCPRequest].  [body] stands for the outcome of reading the
    request and of [JSON.parse] on it: the decoded value, or what was
    thrown (a [SyntaxError] on text that is not JSON). *)
Definition parseMCPRequest (body : Thrown + Value) : M Tools Value :=
  parsed <- lift body ;;
  method <- lift (Get parsed "method") ;;
  if negb (truthy method) then
    throw (Throw Error "Missing required field: method")
  else if negb (strictEq method "tools/list") && negb (strictEq method "tools/call")
  then
    shown <- lift (ToString method) ;;
    throw (Throw Error ("Unsupported method: " ^^ shown))
  else if strictEq method "tools/call" then
    params <- lift (Get parsed "params") ;;
    if negb (truthy (GetOptional params "name")) then
      throw (Throw Error "Missing required field: params.name for tools/call")
    else ret parsed
  else ret parsed.

Definition handleToolsList : M Tools MCPResponse :=
  tools <- listTools ;;
  ret {| result :=
           Some (VObject [("tools", VArray (map ToolDefinition_value tools))]);
         error := None |}.

Definition handleToolsCall (params : Value) : M Tools MCPResponse :=
  name <- lift (Destructure params "params" "name") ;;
  args <- lift (Destructure params "params" "arguments") ;;
  if negb (truthy name) then
    throw (Throw Error "Tool name is required")
  else
    try_catch
      (result <- executeTool name (JS.or args (VObject [])) ;;
       ret {| result := Some result; error := None |})
      (fun error =>
         ret {| result := None;
                error :=
                  Some {| code := -32603;
                          message :=
                            if instanceofError error then messageOf error
                            else "Tool execution failed" |} |}).

Definition routeRequest (request : Value) : M Tools MCPResponse :=
  try_catch
    (method <- lift (Get request "method") ;;
     if strictEq method "tools/list" then
       handleToolsList
     else if strictEq method "tools/call" then
       params <- lift (Get request "params") ;;
       handleToolsCall params
     else
       shown <- lift (ToString method) ;;
       throw (Throw Error ("Unsupported method: " ^^ shown)))
    (fun error => throw error).

Definition handleHealthCheck : M Tools HttpResponse :=
  toolCount <- getToolCount ;;
  ret {| statusCode := 200; body := HealthStatus toolCount |}.

Definition sendSuccessResponse (mcpResponse : MCPResponse) : HttpResponse :=
  {| statusCode := 200; body := MCPBody mcpResponse |}.

Definition sendErrorResponse (statusCode : Z) (errorCode message : string)
  : HttpResponse :=
  let errorResponse :=
    {| result := None;
       error := Some {| code := statusCode;
                        message := errorCode ^^ ": " ^^ message |} |} in
  {| statusCode := statusCode; body := MCPBody errorResponse |}.

(** [handleRequest], from the request's HTTP method and its body. *)
Definition handleRequest (req_method : string) (body : Thrown + Value)
  : M Tools HttpResponse :=
  if String.eqb req_method "OPTIONS" then
    ret {| statusCode := 200; body := NoBody |}
  else if String.eqb req_method "GET" then
    handleHealthCheck
  else if negb (String.eqb req_method "POST") then
    ret (sendErrorResponse 405 "METHOD_NOT_ALLOWED"
           "Only GET and POST requests are supported")
  else
    try_catch
      (mcpRequest <- parseMCPRequest body ;;
       mcpResponse <- routeRequest mcpRequest ;;
       ret (sendSuccessResponse mcpResponse))
      (fun error =>
         if instanceofSyntaxError error then
           ret (sendErrorResponse 400 "INVALID_JSON"
                  "Request body must be valid JSON")
         else if instanceofError error then
           ret (sendErrorResponse 400 "BAD_REQUEST" (messageOf error))
         else
           ret (sendErrorResponse 500 "INTERNAL_ERROR"
                  "An unexpected error occurred")).

(** The response object as [JSON.stringify] receives it, and the [code] a
    client finds in its error member. *)
Definition MCPResponse_value (r : MCPResponse) : Value :=
  VObject
    (member "result" (fun v => v) (result r)
     ++ member "error"
          (fun e => VObject [("code", VNumber (code e));
                             ("message", VString (message e))])
          (error r)).

(* ================================================================== *)
(** ** Fixtures: the weather schema and a stub tool *)

Definition schemaOf (ty : string) : SchemaProperty :=
  {| type := Some ty; description := None; enum := None;
     items := None; properties := None; required := None |}.

Definition objectSchema (props : list (string * SchemaProperty))
  (req : option (list string)) : SchemaProperty :=
  {| type := Some "object"; description := None; enum := None;
     items := None; properties := Some props; required := req |}.

(** [{type: object, properties: {location: {type: string}},
      required: [location]}] *)
Definition locationSchema : SchemaProperty :=
  objectSchema [("location", schemaOf "string")] (Some ["location"]).

(** A tool named [get-weather] that answers [{echo: params.location}]. *)
Definition echoTool : BaseTool :=
  {| name := "get-weather";
     tool_description := "Echo the location";
     inputSchema := locationSchema;
     execute := fun params =>
       match Get params "location" with
       | inl t => inl t
       | inr v => inr (VObject [("echo", v)])
       end |}.

Definition callRequest (method target : string) (args : Value) : Value :=
  VObject [("method", VString method);
           ("params", VObject [("name", VString target);
                               ("arguments", args)])].

Definition london : Value := VObject [("location", VString "London")].

(** A schema with a nested object:
    [{type: object,
      properties: {options: {type: object,
                             properties: {units: {type: unitsKind}},
                             required: nestedRequired}},
      required: [options]}] *)
Definition optionsSchema (unitsKind : string)
  (nestedRequired : option (list string)) : SchemaProperty :=
  objectSchema
    [("options", objectSchema [("units", schemaOf unitsKind)] nestedRequired)]
    (Some ["options"]).

(** A tool named [name] with an empty object schema whose [execute]
    resolves to [returned]. *)
Definition constantTool (name description : string) (returned : Value)
  : BaseTool :=
  {| name := name;
     tool_description := description;
     inputSchema := objectSchema [] None;
     execute := fun _ => inr returned |}.

(** A tool with a given schema that hands its parameters back. *)
Definition toolWith (schema : SchemaProperty) : BaseTool :=
  {| name := "configure";
     tool_description := "Return the parameters";
     inputSchema := schema;
     execute := fun params => inr params |}.

(** The server after [main]'s registrations, one [registerTool] per tool. *)
Fixpoint registerAll (tools : list BaseTool) : M Tools unit :=
  match tools with
  | [] => ret tt
  | tool :: rest => registerTool tool ;;; registerAll rest
  end.

(* ================================================================== *)
(** ** Vocabulary of the specification *)

(** No key occurs twice. *)
Fixpoint distinct (l : list string) : bool :=
  match l with
  | [] => true
  | k :: rest => negb (existsb (String.eqb k) rest) && distinct rest
  end.

(** A schema is a JavaScript object: at every level its [properties] name
    each key once. *)
Fixpoint wellFormed (s : SchemaProperty) : bool :=
  match s with
  | mkSchemaProperty _ _ _ its props _ =>
      match its with
      | Some it => wellFormed it
      | None => true
      end
      && match props with
         | Some ps =>
             distinct (JS.keys ps)
             && forallb (fun kp => wellFormed (snd kp)) ps
         | None => true
         end
  end.

(** The five kinds of the schema language. *)
Definition knownKind (s : SchemaProperty) : bool :=
  typeIs (type s) "string" || typeIs (type s) "number"
  || typeIs (type s) "boolean" || typeIs (type s) "array"
  || typeIs (type s) "object".

(** Structural satisfaction, as the specification words it: the value has
    the schema's kind; an object has every required field, each declared
    field it has satisfies the field's schema, and fields that are not
    required may be absent; each element of an array satisfies the element
    schema; a missing or unknown kind accepts anything. *)
Fixpoint conforms (s : SchemaProperty) (v : Value) : bool :=
  match s with
  | mkSchemaProperty ty _ _ its props req =>
      if typeIs ty "string" then
        match v with VString _ => true | _ => false end
      else if typeIs ty "number" then
        match v with VNumber _ => true | _ => false end
      else if typeIs ty "boolean" then
        match v with VBool _ => true | _ => false end
      else if typeIs ty "array" then
        match v with
        | VArray l =>
            match its with
            | Some it => forallb (conforms it) l
            | None => true
            end
        | _ => false
        end
      else if typeIs ty "object" then
        match v with
        | VObject o =>
            forallb (fun k => hasOwn o k)
                    (match req with Some l => l | None => [] end)
            && match props with
               | Some ps =>
                   forallb
                     (fun kp =>
                        negb (hasOwn o (fst kp))
                        || conforms (snd kp) (prop o (fst kp)))
                     ps
               | None => true
               end
        | _ => false
        end
      else true
  end.



(** No object schema at or below [s] declares a field named [__proto__]. *)
Fixpoint protoFree (s : SchemaProperty) : bool :=
  match s with
  | mkSchemaProperty _ _ _ its props _ =>
      match its with
      | Some it => protoFree it
      | None => true
      end
      && match props with
         | Some ps =>
             forallb
               (fun kp =>
                  negb (String.eqb (fst kp) "__proto__") && protoFree (snd kp))
               ps
         | None => true
         end
  end.

(** [s] with another [required] list. *)
Definition withRequired (s : SchemaProperty) (req : option (list string))
  : SchemaProperty :=
  {| type := type s; description := description s; enum := enum s;
     items := items s; properties := properties s; required := req |}.

(** [addsUndeclared s v v']: [v'] is [v] with fields added that the schema
    does not declare, in the object that [s] describes or in an object
    nested in it, under a declared field or in an array. *)
Inductive addsUndeclared : SchemaProperty -> Value -> Value -> Prop :=
| add_none s v :
    addsUndeclared s v v
| add_here s o k x :
    typeIs (type s) "object" = true ->
    hasOwn (entriesOrEmpty (properties s)) k = false ->
    addsUndeclared s (VObject o) (VObject (JS.set o k x))
| add_below s o k field v' :
    typeIs (type s) "object" = true ->
    own (entriesOrEmpty (properties s)) k = Some field ->
    addsUndeclared field (prop o k) v' ->
    addsUndeclared s (VObject o) (VObject (JS.set o k v'))
| add_element s element before x x' after :
    typeIs (type s) "array" = true ->
    items s = Some element ->
    addsUndeclared element x x' ->
    addsUndeclared s (VArray (before ++ x :: after))
                     (VArray (before ++ x' :: after))
| add_more s v1 v2 v3 :
    addsUndeclared s v1 v2 ->
    addsUndeclared s v2 v3 ->
    addsUndeclared s v1 v3.





(** The [code] a client reads in the error member of a response body. *)
Definition errorCodeOnWire (out : HttpResponse) : option Value :=
  match body out with
  | MCPBody r =>
      match own (match MCPResponse_value r with
                 | VObject o => o
                 | _ => []
                 end) "error" with
      | Some (VObject e) => own e "code"
      | _ => None
      end
  | _ => None
  end.

(** The message a client reads there. *)
Definition errorMessageOnWire (out : HttpResponse) : option string :=
  match body out with
  | MCPBody r => option_map message (error r)
  | _ => None
  end.

(** [hay.includes(needle)] *)
Fixpoint includes (needle hay : string) : bool :=
  String.prefix needle hay
  || match hay with
     | EmptyString => false
     | String _ rest => includes needle rest
     end.

(** A decoded payload carries one of the two methods of the protocol. *)
Definition recognisedMethod (payload : Value) : bool :=
  strictEq (GetOptional payload "method") "tools/list"
  || strictEq (GetOptional payload "method") "tools/call".

(** The shape that the converters fill from the entries of [properties],
    [f] giving the validator of an entry: the entries in order, an entry
    named [__proto__] left out. *)
Definition shapeOf (f : string * SchemaProperty -> ZodType)
  (ps : list (string * SchemaProperty)) : list (string * ZodType) :=
  map (fun kp => (fst kp, f kp))
      (filter (fun kp => negb (String.eqb (fst kp) "__proto__")) ps).

(** The validator [jsonSchemaToZod] puts in the shape for one entry of
    [properties]. *)
Definition topLevelEntry (schema : SchemaProperty)
  (kp : string * SchemaProperty) : ZodType :=
  if negb (requiredIncludes (required schema) (fst kp))
  then ZOptional (convertPropertyToZod (snd kp))
  else convertPropertyToZod (snd kp).

(** The response [handleToolsCall] builds from the outcome of
    [executeTool]. *)
Definition callResponse (outcome : Thrown + Value) : MCPResponse :=
  match outcome with
  | inr result => {| result := Some result; error := None |}
  | inl error =>
      {| result := None;
         error := Some {| code := -32603;
                          message := if instanceofError error
                                     then messageOf error
                                     else "Tool execution failed" |} |}
  end.

(* ================================================================== *)
(** ** Further vocabulary for the validator and the transport *)


(** The value has the JavaScript type that a schema of one of the five
    kinds names. *)
Definition hasKind (s : SchemaProperty) (v : Value) : bool :=
  if typeIs (type s) "string" then
    match v with VString _ => true | _ => false end
  else if typeIs (type s) "number" then
    match v with VNumber _ => true | _ => false end
  else if typeIs (type s) "boolean" then
    match v with VBool _ => true | _ => false end
  else if typeIs (type s) "array" then
    match v with VArray _ => true | _ => false end
  else if typeIs (type s) "object" then
    match v with VObject _ => true | _ => false end
  else true.

(** A value that [JSON.parse] can return: [undefined] occurs nowhere. *)
Fixpoint decodable (v : Value) : bool :=
  match v with
  | VUndefined => false
  | VArray l => forallb decodable l
  | VObject o => forallb (fun kv => decodable (snd kv)) o
  | _ => true
  end.

(** Every name in [req] is a key of [ps]. *)
Definition requiredDeclared (req : option (list string))
  (ps : list (string * SchemaProperty)) : bool :=
  forallb (fun k => hasOwn ps k) (match req with Some l => l | None => [] end).

(** The schema stays inside the five kinds at every level, and an object
    schema requires only fields that it declares. *)
Fixpoint closedSchema (s : SchemaProperty) : bool :=
  match s with
  | mkSchemaProperty ty _ _ its props req =>
      (typeIs ty "string" || typeIs ty "number" || typeIs ty "boolean"
       || typeIs ty "array" || typeIs ty "object")
      && match its with
         | Some it => closedSchema it
         | None => true
         end
      && match props with
         | Some ps =>
             requiredDeclared req ps
             && forallb (fun kp => closedSchema (snd kp)) ps
         | None => requiredDeclared req []
         end
  end.

(** The server after a list of registration attempts, failed ones included
    (a failed [registerTool] leaves the server as it was). *)
Definition afterAttempts (attempts : list BaseTool) (start : Tools) : Tools :=
  fold_left (fun tools tool => snd (registerTool tool tools)) attempts start.

(* ================================================================== *)
(** ** String methods

    The methods of [String.prototype] that the utilities and [main] call,
    on ASCII text: environment values and task names are taken to be
    ASCII, where [\s] and [trim] know the six white-space characters. *)

Module Str.

Definition isUpper (c : ascii) : bool :=
  (65 <=? nat_of_ascii c)%nat && (nat_of_ascii c <=? 90)%nat.

Definition isLower (c : ascii) : bool :=
  (97 <=? nat_of_ascii c)%nat && (nat_of_ascii c <=? 122)%nat.

Definition isDigit (c : ascii) : bool :=
  (48 <=? nat_of_ascii c)%nat && (nat_of_ascii c <=? 57)%nat.

(** [\s]: tab, line feed, vertical tab, form feed, carriage return, space. *)
Definition isSpace (c : ascii) : bool :=
  ((9 <=? nat_of_ascii c)%nat && (nat_of_ascii c <=? 13)%nat)
  || (nat_of_ascii c =? 32)%nat.

Definition isHyphen (c : ascii) : bool := (nat_of_ascii c =? 45)%nat.

Definition hyphen : ascii := ascii_of_nat 45.

Definition newline : string := String (ascii_of_nat 10) EmptyString.

Definition lowerChar (c : ascii) : ascii :=
  if isUpper c then ascii_of_nat (nat_of_ascii c + 32) else c.

Definition upperChar (c : ascii) : ascii :=
  if isLower c then ascii_of_nat (nat_of_ascii c - 32) else c.

Fixpoint mapChars (f : ascii -> ascii) (s : string) : string :=
  match s with
  | EmptyString => EmptyString
  | String c rest => String (f c) (mapChars f rest)
  end.

Definition toLowerCase (s : string) : string := mapChars lowerChar s.
Definition toUpperCase (s : string) : string := mapChars upperChar s.

(** [s.padEnd(n)] *)
Fixpoint spaces (n : nat) : string :=
  match n with
  | O => EmptyString
  | S m => String (ascii_of_nat 32) (spaces m)
  end.

Definition padEnd (n : nat) (s : string) : string :=
  s ^^ spaces (n - String.length s).

(** [s.replace(/[^...]/g, '')]: the characters that [keep] are left. *)
Fixpoint removeUnless (keep : ascii -> bool) (s : string) : string :=
  match s with
  | EmptyString => EmptyString
  | String c rest =>
      if keep c then String c (removeUnless keep rest)
      else removeUnless keep rest
  end.

(** [s.replace(/[...]+/g, '-')]: every maximal run of characters that
    [inClass] gives way to one hyphen; [inRun] tells that the character
    before belonged to a run. *)
Fixpoint replaceRuns (inClass : ascii -> bool) (inRun : bool) (s : string)
  : string :=
  match s with
  | EmptyString => EmptyString
  | String c rest =>
      if inClass c then
        if inRun then replaceRuns inClass true rest
        else String hyphen (replaceRuns inClass true rest)
      else String c (replaceRuns inClass false rest)
  end.

Fixpoint trimStart (s : string) : string :=
  match s with
  | EmptyString => EmptyString
  | String c rest => if isSpace c then trimStart rest else s
  end.

Fixpoint trimEnd (s : string) : string :=
  match s with
  | EmptyString => EmptyString
  | String c rest =>
      match trimEnd rest with
      | EmptyString => if isSpace c then EmptyString else String c EmptyString
      | kept => String c kept
      end
  end.

Definition trim (s : string) : string := trimEnd (trimStart s).

(** [s.split(c)[0]] *)
Fixpoint beforeFirst (c : ascii) (s : string) : string :=
  match s with
  | EmptyString => EmptyString
  | String d rest =>
      if Ascii.eqb d c then EmptyString else String d (beforeFirst c rest)
  end.

(** [list.join(separator)] *)
Fixpoint join (separator : string) (l : list string) : string :=
  match l with
  | [] => EmptyString
  | [s] => s
  | s :: rest => s ^^ separator ^^ join separator rest
  end.

(** [parseInt(s, 10)], [None] for [NaN]: leading white space, a sign, then
    the longest run of decimal digits. *)
Fixpoint digits (acc : Z) (s : string) : Z :=
  match s with
  | EmptyString => acc
  | String c rest =>
      if isDigit c
      then digits (10 * acc + Z.of_nat (nat_of_ascii c - 48)) rest
      else acc
  end.

Definition parseInt (s : string) : option Z :=
  let s := trimStart s in
  let signed :=
    match s with
    | String c rest =>
        if (nat_of_ascii c =? 45)%nat then ((-1)%Z, rest)
        else if (nat_of_ascii c =? 43)%nat then (1%Z, rest)
        else (1%Z, s)
    | EmptyString => (1%Z, s)
    end in
  match snd signed with
  | String c _ =>
      if isDigit c then Some (fst signed * digits 0 (snd signed))%Z else None
  | EmptyString => None
  end.

(** Every character of the string passes the test. *)
Fixpoint allChars (test : ascii -> bool) (s : string) : bool :=
  match s with
  | EmptyString => true
  | String c rest => test c && allChars test rest
  end.

(** No two hyphens stand side by side. *)
Fixpoint noHyphenRun (s : string) : bool :=
  match s with
  | String c ((String d _) as rest) =>
      negb (isHyphen c && isHyphen d) && noHyphenRun rest
  | _ => true
  end.

(** The string does not begin with a hyphen. *)
Definition noLeadingHyphen (s : string) : bool :=
  match s with
  | String c _ => negb (isHyphen c)
  | EmptyString => true
  end.

End Str.

(* ================================================================== *)
(** ** src/utils/Logger.ts

    The logger's state is its level and what it has written to the
    console.  The time stamp of a line is the clock's and comes as an
    argument; [JSON.stringify] is the runtime's and is a parameter. *)

Module Logger.

Inductive LogLevel := INFO | DEBUG | WARNING | ERROR.

(** The string each member of the [enum] stands for. *)
Definition value (level : LogLevel) : string :=
  match level with
  | INFO => "info"
  | DEBUG => "debug"
  | WARNING => "warning"
  | ERROR => "error"
  end.

Definition levelPriority (level : LogLevel) : nat :=
  match level with
  | DEBUG => 0
  | INFO => 1
  | WARNING => 2
  | ERROR => 3
  end.

Inductive Console := console_log | console_warn | console_error.

Record State := mkState {
  currentLevel : LogLevel;
  written : list (Console * string)
}.

(** [private static currentLevel: LogLevel = LogLevel.INFO] *)
Definition initial : State := {| currentLevel := INFO; written := [] |}.

Definition LogContext : Type := list (string * Value).

(** The members of an [Error] that [Logger.error] reads. *)
Record ErrorObject := mkErrorObject {
  e_message : string;
  e_name : string;
  e_stack : option string
}.

Definition setLevel (level : LogLevel) (st : State) : State :=
  {| currentLevel := level; written := written st |}.

Section Logging.
Variable stringify : LogContext -> string.

Definition log (now : string) (level : LogLevel) (message : string)
  (context : option LogContext) (st : State) : State :=
  if (levelPriority level <? levelPriority (currentLevel st))%nat then st
  else
    let timestamp := now in
    let levelStr := Str.padEnd 7 (Str.toUpperCase (value level)) in
    let logMessage := "[" ^^ timestamp ^^ "] [" ^^ levelStr ^^ "] " ^^ message in
    let logMessage :=
      match context with
      | Some c =>
          if (0 <? length (JS.keys c))%nat
          then logMessage ^^ " " ^^ stringify c
          else logMessage
      | None => logMessage
      end in
    let channel :=
      match level with
      | ERROR => console_error
      | WARNING => console_warn
      | DEBUG | INFO => console_log
      end in
    {| currentLevel := currentLevel st;
       written := written st ++ [(channel, logMessage)] |}.

Definition info (now message : string) (context : option LogContext)
  : State -> State :=
  log now INFO message context.

Definition debug (now message : string) (context : option LogContext)
  : State -> State :=
  log now DEBUG message context.

Definition warning (now message : string) (context : option LogContext)
  : State -> State :=
  log now WARNING message context.

Definition error (now message : string) (error : option ErrorObject)
  (context : option LogContext) : State -> State :=
  let errorContext : LogContext := entriesOrEmpty context in
  let errorContext :=
    match error with
    | Some e =>
        let errorContext :=
          JS.set errorContext "errorMessage" (VString (e_message e)) in
        let errorContext :=
          JS.set errorContext "errorName" (VString (e_name e)) in
        match e_stack e with
        | Some stack =>
            if negb (String.eqb stack "")
            then JS.set errorContext "stackTrace" (VString stack)
            else errorContext
        | None => errorContext
        end
    | None => errorContext
    end in
  log now ERROR message (Some errorContext).

End Logging.

End Logger.

(* ================================================================== *)
(** ** src/index.ts: the configuration read at start-up *)

Module Config.

(** The variables of [process.env] that [main] reads. *)
Record Env := mkEnv {
  LOG_LEVEL : option string;
  PORT : option string;
  WEATHER_API_KEY : option string
}.

Definition validLevels : list string := ["debug"; "info"; "warning"; "error"].

(** [process.env.X || fallback] *)
Definition orElse (v : option string) (fallback : string) : string :=
  match v with
  | Some s => if String.eqb s "" then fallback else s
  | None => fallback
  end.

(** [!process.env.X] *)
Definition unset (v : option string) : bool :=
  match v with
  | Some s => String.eqb s ""
  | None => true
  end.

(** [validateConfiguration]: what it throws, if anything, and the lines it
    hands to [console.warn]. *)
Definition validateConfiguration (env : Env) : (Thrown + unit) * list string :=
  let errors : list string := [] in
  let errors :=
    match LOG_LEVEL env with
    | Some given =>
        if unset (Some given) then errors
        else
          let level := Str.toLowerCase given in
          if negb (existsb (String.eqb level) validLevels) then
            errors ++ ["Invalid LOG_LEVEL: " ^^ given
                       ^^ ". Must be one of: " ^^ Str.join ", " validLevels]
          else errors
    | None => errors
    end in
  let errors :=
    match PORT env with
    | Some given =>
        if unset (Some given) then errors
        else
          let port := Str.parseInt given in
          if match port with
             | None => true
             | Some n => (n <? 1)%Z || (65535 <? n)%Z
             end
          then
            errors ++ ["Invalid PORT: " ^^ given
                       ^^ ". Must be a number between 1 and 65535"]
          else errors
    | None => errors
    end in
  let warnings :=
    if unset (WEATHER_API_KEY env) then
      ["WARNING: WEATHER_API_KEY is not set. Weather API functionality will not work.";
       "Get your free API key from: https://openweathermap.org/api"]
    else [] in
  if (0 <? length errors)%nat then
    (inl (Throw Error ("Configuration validation failed:" ^^ Str.newline
                       ^^ Str.join Str.newline errors)),
     warnings)
  else (inr tt, warnings).

(** [main]'s [logLevel]:
    [process.env.LOG_LEVEL?.toLowerCase() || LogLevel.INFO]. *)
Definition logLevel (env : Env) : string :=
  orElse (option_map Str.toLowerCase (LOG_LEVEL env))
         (Logger.value Logger.INFO).

(** [main]'s [port]: [parseInt(process.env.PORT || '3000', 10)]. *)
Definition port (env : Env) : option Z :=
  Str.parseInt (orElse (PORT env) "3000").

End Config.

(* ================================================================== *)
(** ** src/utils/DocumentationGenerator.ts: the name of a task document *)

Module DocumentationGenerator.

(** The characters that [/[^a-z0-9\s-]/g] leaves in place. *)
Definition safeChar (c : ascii) : bool :=
  Str.isLower c || Str.isDigit c || Str.isSpace c || Str.isHyphen c.

(** The [sanitized] of [generateFilename]. *)
Definition sanitized (taskName : string) : string :=
  Str.trim
    (Str.replaceRuns Str.isHyphen false
       (Str.replaceRuns Str.isSpace false
          (Str.removeUnless safeChar (Str.toLowerCase taskName)))).

(** [generateFilename], [now] being [new Date().toISOString()]. *)
Definition generateFilename (now taskName : string) : string :=
  let timestamp := Str.beforeFirst (ascii_of_nat 84) now in
  timestamp ^^ "-" ^^ sanitized taskName ^^ ".md".

(** The characters a sanitized name is made of. *)
Definition nameChar (c : ascii) : bool :=
  Str.isLower c || Str.isDigit c || Str.isHyphen c.

End DocumentationGenerator.

(* ================================================================== *)
(** * Properties *)

(** ** Objects and maps *)

Section Entries.
Context {A : Type}.
Implicit Types (o : list (string * A)) (k : string) (v : A).

Lemma own_set_same o k v : own (JS.set o k v) k = Some v.
Proof.
  induction o as [|[k' v'] rest IH]; simpl.
  - now rewrite String.eqb_refl.
  - destruct (String.eqb k' k) eqn:E; simpl; now rewrite E.
Qed.

Lemma own_set_other o k k' v : k <> k' -> own (JS.set o k v) k' = own o k'.
Proof.
  intros Hne. induction o as [|[k0 v0] rest IH]; simpl.
  - destruct (String.eqb k k') eqn:E; [|reflexivity].
    apply String.eqb_eq in E. contradiction.
  - destruct (String.eqb k0 k) eqn:E; simpl.
    + apply String.eqb_eq in E; subst k0.
      destruct (String.eqb k k') eqn:E'; [|reflexivity].
      apply String.eqb_eq in E'. contradiction.
    + now rewrite IH.
Qed.

Lemma hasOwn_keys o k : hasOwn o k = true <-> In k (JS.keys o).
Proof.
  unfold hasOwn. induction o as [|[k' v'] rest IH]; simpl.
  - split; [discriminate|tauto].
  - destruct (String.eqb k' k) eqn:E.
    + apply String.eqb_eq in E. split; auto.
    + apply String.eqb_neq in E. rewrite IH.
      split; [auto|intros [H|H]; [contradiction|auto]].
Qed.

Lemma hasOwn_false_own o k : hasOwn o k = false <-> own o k = None.
Proof.
  unfold hasOwn. destruct (own o k); split; congruence.
Qed.

Lemma own_In o k v : own o k = Some v -> In (k, v) o.
Proof.
  induction o as [|[k' v'] rest IH]; simpl; [discriminate|].
  destruct (String.eqb k' k) eqn:E.
  - apply String.eqb_eq in E. intros [= ->]. subst. now left.
  - auto.
Qed.

Lemma set_fresh o k v : hasOwn o k = false -> JS.set o k v = o ++ [(k, v)].
Proof.
  unfold hasOwn. induction o as [|[k' v'] rest IH]; simpl; [reflexivity|].
  destruct (String.eqb k' k); [discriminate|].
  intros H. now rewrite IH.
Qed.

Lemma own_app_fresh o k v k' :
  hasOwn o k' = false -> own (o ++ [(k, v)]) k' = own [(k, v)] k'.
Proof.
  unfold hasOwn. induction o as [|[k0 v0] rest IH]; [reflexivity|].
  cbn [own app]. destruct (String.eqb k0 k'); [discriminate|auto].
Qed.
End Entries.

Lemma existsb_eqb_In k l : existsb (String.eqb k) l = true <-> In k l.
Proof.
  rewrite existsb_exists. split.
  - intros [x [Hin E]]. apply String.eqb_eq in E. now subst.
  - intros Hin. exists k. split; [assumption|apply String.eqb_refl].
Qed.

Lemma distinct_NoDup l : distinct l = true <-> NoDup l.
Proof.
  induction l as [|k rest IH]; simpl.
  - split; [constructor|reflexivity].
  - rewrite andb_true_iff, negb_true_iff, IH. split.
    + intros [Hk Hr]. constructor; [|assumption].
      intros Hin. apply existsb_eqb_In in Hin. congruence.
    + intros H. inversion H as [|? ? Hk Hr]; subst. split; [|assumption].
      destruct (existsb (String.eqb k) rest) eqn:E; [|reflexivity].
      apply existsb_eqb_In in E. contradiction.
Qed.

(** With distinct keys, filling a shape key by key lists the entries in
    order, an entry named [__proto__] left out. *)
Lemma fold_assign_entries {A B : Type} (f : string * A -> B)
  (ps : list (string * A)) (acc : list (string * B)) :
  NoDup (JS.keys ps) ->
  (forall k, In k (JS.keys ps) -> hasOwn acc k = false) ->
  hasOwn acc "__proto__" = false ->
  fold_left (fun shape kp => JS.assign shape (fst kp) (f kp)) ps acc
  = acc ++ map (fun kp => (fst kp, f kp))
               (filter (fun kp => negb (String.eqb (fst kp) "__proto__")) ps).
Proof.
  revert acc. induction ps as [|[k a] rest IH]; intros acc Hnd Hacc Hproto.
  - cbn. now rewrite app_nil_r.
  - inversion Hnd as [|? ? Hk Hr]; subst.
    cbn [fold_left filter fst]. unfold JS.assign at 2.
    destruct (String.eqb k "__proto__") eqn:E; cbn [negb andb].
    + apply String.eqb_eq in E. subst k. rewrite Hproto. cbn [negb].
      apply IH; [assumption| |assumption].
      intros k' Hin. apply Hacc. now right.
    + rewrite set_fresh by (apply Hacc; now left).
      rewrite IH.
      * cbn [map fst]. now rewrite <- app_assoc.
      * assumption.
      * intros k' Hin. apply hasOwn_false_own.
        rewrite own_app_fresh by (apply Hacc; now right).
        simpl. destruct (String.eqb k k') eqn:E'; [|reflexivity].
        apply String.eqb_eq in E'. subst. contradiction.
      * apply hasOwn_false_own. rewrite own_app_fresh by assumption.
        simpl. now rewrite E.
Qed.

Lemma fold_assign_shape (f : string * SchemaProperty -> ZodType)
  (ps : list (string * SchemaProperty)) :
  distinct (JS.keys ps) = true ->
  fold_left (fun shape kp => JS.assign shape (fst kp) (f kp)) ps []
  = shapeOf f ps.
Proof.
  intros H. apply distinct_NoDup in H.
  now rewrite fold_assign_entries by (assumption || reflexivity).
Qed.

(** ** The tool map *)

Lemma registerTool_fresh (tool : BaseTool) (tools : Tools) :
  Map.has tools (name tool) = false ->
  registerTool tool tools = (inr tt, tools ++ [(name tool, tool)]).
Proof.
  intros H. unfold registerTool, bind, get, put. cbn beta iota.
  rewrite H. unfold Map.set. now rewrite set_fresh.
Qed.

Lemma registerTool_present (tool : BaseTool) (tools : Tools) :
  Map.has tools (name tool) = true ->
  registerTool tool tools
  = (inl (Throw Error
            ("Tool with name '" ^^ name tool ^^ "' is already registered")),
     tools).
Proof.
  intros H. unfold registerTool, bind, get, throw. cbn beta iota.
  now rewrite H.
Qed.

Lemma has_after_register (tool : BaseTool) (tools : Tools) :
  Map.has (snd (registerTool tool tools)) (name tool) = true.
Proof.
  destruct (Map.has tools (name tool)) eqn:H.
  - now rewrite registerTool_present.
  - rewrite registerTool_fresh by assumption. cbn [snd].
    apply hasOwn_keys. unfold JS.keys. rewrite map_app. apply in_or_app.
    right. now left.
Qed.

Lemma registerAll_fresh (tools : list BaseTool) (start : Tools) :
  NoDup (map name tools) ->
  (forall k, In k (map name tools) -> Map.has start k = false) ->
  registerAll tools start
  = (inr tt, start ++ map (fun tool => (name tool, tool)) tools).
Proof.
  revert start. induction tools as [|tool rest IH]; intros start Hnd Hfresh.
  - cbn. now rewrite app_nil_r.
  - cbn [registerAll map]. inversion Hnd as [|? ? Hk Hr]; subst.
    unfold bind at 1.
    rewrite registerTool_fresh by (apply Hfresh; now left).
    rewrite IH.
    + now rewrite <- app_assoc.
    + assumption.
    + intros k Hin. apply hasOwn_false_own.
      rewrite own_app_fresh by (apply Hfresh; now right).
      cbn. destruct (String.eqb (name tool) k) eqn:E; [|reflexivity].
      apply String.eqb_eq in E. subst. contradiction.
Qed.

(** C3.  Whatever the tool map holds, registering a tool and then another
    of the same name makes the second registration throw the "already
    registered" error and leaves the map as the first registration left
    it; when the first registration went through, the map holds the first
    tool under that name and counts one tool more than before. *)
Theorem registerTool_rejects_duplicate
  (tools : Tools) (first second : BaseTool) :
  name first = name second ->
  let tools1 := snd (registerTool first tools) in
  registerTool second tools1
  = (inl (Throw Error
            ("Tool with name '" ^^ name second ^^ "' is already registered")),
     tools1)
  /\ getToolCount (snd (registerTool second tools1)) = getToolCount tools1
  /\ (Map.has tools (name first) = false ->
      fst (registerTool first tools) = inr tt
      /\ Map.get (snd (registerTool second tools1)) (name second) = Some first
      /\ getToolCount (snd (registerTool second tools1))
         = (inr (S (Map.size tools)), tools1)).
Proof.
  intros Hname tools1.
  assert (Hhas : Map.has tools1 (name second) = true).
  { subst tools1. rewrite <- Hname. apply has_after_register. }
  rewrite (registerTool_present second tools1 Hhas). cbn [snd].
  repeat split.
  - subst tools1. now rewrite registerTool_fresh.
  - subst tools1. rewrite registerTool_fresh by assumption. cbn [snd].
    rewrite <- Hname. unfold Map.get.
    rewrite own_app_fresh by assumption. cbn. now rewrite String.eqb_refl.
  - subst tools1. rewrite registerTool_fresh by assumption. cbn [snd].
    unfold getToolCount, bind, get, ret, Map.size. cbn beta iota.
    rewrite length_app. cbn. f_equal. f_equal. lia.
Qed.

(** The witness: the echo tool registered twice on a fresh server. *)
Lemma registerTool_rejects_duplicate_witness :
  name echoTool = name echoTool
  /\ registerTool echoTool (snd (registerTool echoTool MCPServer_new))
     = (inl (Throw Error "Tool with name 'get-weather' is already registered"),
        [("get-weather", echoTool)]).
Proof.
  split; [reflexivity|].
  exact (proj1 (registerTool_rejects_duplicate MCPServer_new echoTool echoTool eq_refl)).
Defined.

(** C8.  On a fresh server, registering tools with pairwise distinct names
    succeeds for each of them, and [listTools] then returns one definition
    per tool, in the order of registration, each holding the name, the
    description and the schema of its tool; their names are the registered
    names. *)
Theorem listTools_after_registrations (tools : list BaseTool) :
  NoDup (map name tools) ->
  exists server definitions,
    registerAll tools MCPServer_new = (inr tt, server)
    /\ listTools server = (inr definitions, server)
    /\ length definitions = length tools
    /\ Permutation (map td_name definitions) (map name tools)
    /\ definitions
       = map (fun tool => {| td_name := name tool;
                             td_description := tool_description tool;
                             td_inputSchema := inputSchema tool |})
             tools.
Proof.
  intros Hnd.
  exists (map (fun tool => (name tool, tool)) tools),
         (map (fun tool => {| td_name := name tool;
                              td_description := tool_description tool;
                              td_inputSchema := inputSchema tool |})
              tools).
  split; [|split; [|split; [|split]]].
  - rewrite registerAll_fresh; [reflexivity|assumption|reflexivity].
  - unfold listTools, bind, get, ret, Map.values, JS.values. cbn beta iota.
    rewrite !map_map. cbn. reflexivity.
  - apply length_map.
  - rewrite map_map. cbn. apply Permutation_refl.
  - reflexivity.
Qed.

Lemma listTools_after_registrations_witness :
  let tools := [echoTool;
                toolWith (optionsSchema "string" None);
                constantTool "ping" "Answer pong" (VString "pong")] in
  NoDup (map name tools)
  /\ exists server,
       registerAll tools MCPServer_new = (inr tt, server)
       /\ listTools server
          = (inr [ {| td_name := "get-weather";
                      td_description := "Echo the location";
                      td_inputSchema := locationSchema |};
                   {| td_name := "configure";
                      td_description := "Return the parameters";
                      td_inputSchema := optionsSchema "string" None |};
                   {| td_name := "ping";
                      td_description := "Answer pong";
                      td_inputSchema := objectSchema [] None |} ],
             server).
Proof.
  cbv zeta.
  assert (H : NoDup (map name [echoTool;
                               toolWith (optionsSchema "string" None);
                               constantTool "ping" "Answer pong"
                                 (VString "pong")])).
  { apply distinct_NoDup. reflexivity. }
  split; [exact H|].
  destruct (listTools_after_registrations _ H)
    as [server [definitions [Hreg [Hlist [_ [_ Hdefs]]]]]].
  exists server. split; [exact Hreg|].
  rewrite Hlist, Hdefs. reflexivity.
Defined.

(** ** The validator *)

(** Induction on a zod schema, the shape of an object schema included. *)
Lemma ZodType_nested_ind (P : ZodType -> Prop) :
  P ZString -> P ZNumber -> P ZBoolean -> P ZAny ->
  (forall element, P element -> P (ZArray element)) ->
  (forall shape, Forall (fun kv => P (snd kv)) shape -> P (ZObject shape)) ->
  (forall valueType, P valueType -> P (ZRecord valueType)) ->
  (forall inner, P inner -> P (ZOptional inner)) ->
  forall t, P t.
Proof.
  intros HS HN HB HA HArr HObj HRec HOpt.
  fix IH 1. intros [| | | |element|shape|valueType|inner].
  - exact HS.
  - exact HN.
  - exact HB.
  - exact HA.
  - apply HArr, IH.
  - apply HObj. induction shape as [|[k t] rest IHs]; constructor.
    + apply IH.
    + exact IHs.
  - apply HRec, IH.
  - apply HOpt, IH.
Qed.

(** Induction on a schema, through [items] and [properties]. *)
Lemma SchemaProperty_nested_ind (P : SchemaProperty -> Prop) :
  (forall ty desc en its props req,
      match its with Some it => P it | None => True end ->
      match props with
      | Some ps => Forall (fun kp => P (snd kp)) ps
      | None => True
      end ->
      P (mkSchemaProperty ty desc en its props req)) ->
  forall s, P s.
Proof.
  intros H. fix IH 1. intros [ty desc en its props req].
  apply H.
  - destruct its as [it|]; [apply IH|exact I].
  - destruct props as [ps|]; [|exact I].
    induction ps as [|[k p] rest IHs]; constructor.
    + apply IH.
    + exact IHs.
Qed.

Lemma flat_map_nil {A B : Type} (f : A -> list B) (l : list A) :
  flat_map f l = [] <-> Forall (fun x => f x = []) l.
Proof.
  induction l as [|x rest IH]; simpl.
  - split; [constructor|reflexivity].
  - split.
    + intros H. apply app_eq_nil in H as [Hx Hr]. constructor; [assumption|].
      now apply IH.
    + intros H. inversion H; subst.
      apply IH in H3. now rewrite H2, H3.
Qed.

(** [parse] returns exactly when [accepts] says so. *)
Lemma issues_nil_accepts (t : ZodType) :
  forall p (data : Data), issues t p data = [] <-> accepts t data = true.
Proof.
  induction t as [| | | |element IH|shape IH|valueType IH|inner IH]
    using ZodType_nested_ind; intros p data.
  - destruct data as [[]| |]; simpl; split; (reflexivity || discriminate).
  - destruct data as [[]| |]; simpl; split; (reflexivity || discriminate).
  - destruct data as [[]| |]; simpl; split; (reflexivity || discriminate).
  - simpl. tauto.
  - destruct data as [[| | | | |l|]| |]; simpl;
      try (split; discriminate).
    generalize 0%nat. induction l as [|x rest IHl]; intros i; simpl.
    + tauto.
    + rewrite andb_true_iff, <- IHl, <- (IH (p ++ [Index i])).
      split.
      * intros H. now apply app_eq_nil in H.
      * intros [-> ->]. reflexivity.
  - rewrite Forall_forall in IH.
    destruct data as [[| | | | | |o]| |]; simpl;
      try (split; discriminate);
      rewrite flat_map_nil, forallb_forall, Forall_forall.
    + split; intros H kv Hin;
        apply (IH kv Hin (p ++ [Key (fst kv)]) (read o (fst kv))); now apply H.
    + split; intros H kv Hin;
        apply (IH kv Hin (p ++ [Key (fst kv)]) (readPrototype (fst kv)));
        now apply H.
  - destruct data as [[| | | | | |o]| |]; simpl;
      try (split; discriminate); [|tauto].
    rewrite flat_map_nil, forallb_forall, Forall_forall.
    split; intros H kv Hin;
      apply (IH (p ++ [Key (fst kv)]) (Plain (snd kv))); now apply H.
  - destruct data as [[]| |]; simpl; try apply IH. tauto.
Qed.

Lemma validate_accepts (tool : BaseTool) (params : Value) :
  validate tool params = accepts (jsonSchemaToZod (inputSchema tool)) params.
Proof.
  unfold validate, parse.
  destruct (issues (jsonSchemaToZod (inputSchema tool)) [] params) eqn:E.
  - symmetry. now apply (issues_nil_accepts _ []).
  - destruct (accepts (jsonSchemaToZod (inputSchema tool)) params) eqn:A;
      [|reflexivity].
    apply (issues_nil_accepts _ []) in A. congruence.
Qed.

(** *** What a validator reads in an object *)

Lemma read_own o k : hasOwn o k = true -> read o k = Plain (prop o k).
Proof. unfold hasOwn, read, prop. now destruct (own o k). Qed.

Lemma read_absent o k : hasOwn o k = false -> read o k = inherited k.
Proof. unfold hasOwn, read. now destruct (own o k). Qed.

Lemma prop_absent o k : hasOwn o k = false -> prop o k = VUndefined.
Proof. unfold hasOwn, prop. now destruct (own o k). Qed.

(** Under a name other than [__proto__] an object inherits a function or
    nothing. *)
Lemma inherited_cases k :
  k <> "__proto__" ->
  inherited k = FunctionValue \/ inherited k = Plain VUndefined.
Proof.
  intros H. unfold inherited. apply String.eqb_neq in H. rewrite H.
  destruct (existsb (String.eqb k) prototypeFunctions); auto.
Qed.


Lemma read_set_same o k v : read (JS.set o k v) k = Plain v.
Proof. unfold read. now rewrite own_set_same. Qed.

Lemma read_set_other o k k' v : k <> k' -> read (JS.set o k v) k' = read o k'.
Proof. intros H. unfold read. now rewrite own_set_other. Qed.

(** A validator that takes a function takes [undefined]. *)
Lemma accepts_function_undefined z :
  accepts z FunctionValue = true -> accepts z (Plain VUndefined) = true.
Proof. destruct z; cbn; (discriminate || reflexivity). Qed.

Lemma accepts_optional t (data : Data) :
  accepts t data = true -> accepts (ZOptional t) data = true.
Proof. destruct data as [[]| |]; simpl; auto. Qed.

(** *** What the two converters build *)

Lemma typeIs_eq ty literal : typeIs ty literal = true <-> ty = Some literal.
Proof.
  destruct ty as [t|]; simpl.
  - rewrite String.eqb_eq. split; congruence.
  - split; discriminate.
Qed.

Ltac kind_of H :=
  apply typeIs_eq in H; cbn [type] in H; subst.

Lemma convert_array (p : SchemaProperty) :
  typeIs (type p) "array" = true ->
  convertPropertyToZod p
  = match items p with
    | Some it => ZArray (convertPropertyToZod it)
    | None => ZArray ZAny
    end.
Proof. destruct p. intros H. kind_of H. reflexivity. Qed.

Lemma convert_object (p : SchemaProperty) :
  typeIs (type p) "object" = true ->
  convertPropertyToZod p
  = match properties p with
    | Some ps =>
        ZObject
          (fold_left
             (fun shape kn =>
                JS.assign shape (fst kn) (convertPropertyToZod (snd kn)))
             ps [])
    | None => ZRecord ZAny
    end.
Proof. destruct p. intros H. kind_of H. reflexivity. Qed.


(** A field of one of the five kinds takes neither [undefined] nor a
    function. *)
Lemma known_rejects_undefined (p : SchemaProperty) :
  knownKind p = true -> accepts (convertPropertyToZod p) VUndefined = false.
Proof.
  destruct p as [ty desc en its props req]. unfold knownKind. cbn [type].
  intros H. repeat (apply orb_true_iff in H; destruct H as [H|H]);
    kind_of H; cbn.
  - reflexivity.
  - reflexivity.
  - reflexivity.
  - now destruct its.
  - now destruct props.
Qed.

Lemma known_rejects_function (p : SchemaProperty) :
  knownKind p = true ->
  accepts (convertPropertyToZod p) FunctionValue = false.
Proof.
  destruct p as [ty desc en its props req]. unfold knownKind. cbn [type].
  intros H. repeat (apply orb_true_iff in H; destruct H as [H|H]);
    kind_of H; cbn.
  - reflexivity.
  - reflexivity.
  - reflexivity.
  - now destruct its.
  - now destruct props.
Qed.

Lemma known_rejects_inherited (p : SchemaProperty) k :
  knownKind p = true -> k <> "__proto__" ->
  accepts (convertPropertyToZod p) (inherited k) = false.
Proof.
  intros Hknown Hk. destruct (inherited_cases k Hk) as [-> | ->].
  - now apply known_rejects_function.
  - now apply known_rejects_undefined.
Qed.


Lemma jsonSchemaToZod_object (schema : SchemaProperty) :
  typeIs (type schema) "object" = true ->
  distinct (JS.keys (entriesOrEmpty (properties schema))) = true ->
  jsonSchemaToZod schema
  = ZObject (shapeOf (topLevelEntry schema)
                     (entriesOrEmpty (properties schema))).
Proof.
  intros Hty Hd. unfold jsonSchemaToZod. rewrite Hty.
  now rewrite <- (fold_assign_shape (topLevelEntry schema)).
Qed.

Lemma jsonSchemaToZod_other (schema : SchemaProperty) :
  typeIs (type schema) "object" = false -> jsonSchemaToZod schema = ZAny.
Proof. intros H. unfold jsonSchemaToZod. now rewrite H. Qed.

Lemma convert_object_distinct (p : SchemaProperty) ps :
  typeIs (type p) "object" = true ->
  properties p = Some ps ->
  distinct (JS.keys ps) = true ->
  convertPropertyToZod p
  = ZObject (shapeOf (fun kp => convertPropertyToZod (snd kp)) ps).
Proof.
  intros Hty Hps Hd. rewrite convert_object, Hps by assumption.
  now rewrite (fold_assign_shape (fun kp => convertPropertyToZod (snd kp))).
Qed.

Lemma forallb_refuted {A : Type} (f : A -> bool) (l : list A) (x : A) :
  In x l -> f x = false -> forallb f l = false.
Proof.
  intros Hin Hx. destruct (forallb f l) eqn:E; [|reflexivity].
  rewrite forallb_forall in E. rewrite (E x Hin) in Hx. discriminate.
Qed.

(** An object schema reads the declared keys of the data, [__proto__]
    apart. *)
Lemma accepts_shape (f : string * SchemaProperty -> ZodType) ps o :
  accepts (ZObject (shapeOf f ps)) (VObject o)
  = forallb (fun kp => String.eqb (fst kp) "__proto__"
                       || accepts (f kp) (read o (fst kp))) ps.
Proof.
  cbn [accepts]. unfold shapeOf.
  induction ps as [|kp rest IH]; [reflexivity|].
  cbn [filter forallb].
  destruct (String.eqb (fst kp) "__proto__"); cbn [negb orb andb].
  - exact IH.
  - cbn [map forallb fst snd]. now rewrite IH.
Qed.

(** The same, for a key that is known not to be [__proto__]. *)
Lemma shape_refutes (f : string * SchemaProperty -> ZodType) ps o k field :
  own ps k = Some field ->
  k <> "__proto__" ->
  accepts (f (k, field)) (read o k) = false ->
  accepts (ZObject (shapeOf f ps)) (VObject o) = false.
Proof.
  intros Hown Hk Hno. rewrite accepts_shape.
  apply (forallb_refuted _ _ (k, field)); [now apply own_In|].
  cbn [fst]. apply String.eqb_neq in Hk. now rewrite Hk, Hno.
Qed.


Lemma wellFormed_properties p ps :
  wellFormed p = true -> properties p = Some ps ->
  distinct (JS.keys ps) = true
  /\ forall kp, In kp ps -> wellFormed (snd kp) = true.
Proof.
  destruct p as [ty desc en its props req]. cbn [properties wellFormed].
  intros H ->. apply andb_true_iff in H as [_ H].
  apply andb_true_iff in H as [Hd Hall]. split; [assumption|].
  now apply forallb_forall.
Qed.

Lemma wellFormed_items p it :
  wellFormed p = true -> items p = Some it -> wellFormed it = true.
Proof.
  destruct p as [ty desc en its props req]. cbn [items wellFormed].
  intros H ->. now apply andb_true_iff in H as [H _].
Qed.

Lemma wellFormed_entries p :
  wellFormed p = true ->
  distinct (JS.keys (entriesOrEmpty (properties p))) = true
  /\ forall kp, In kp (entriesOrEmpty (properties p)) ->
                wellFormed (snd kp) = true.
Proof.
  intros H. destruct (properties p) as [ps|] eqn:E.
  - exact (wellFormed_properties p ps H E).
  - split; [reflexivity|intros kp []].
Qed.


(** *** Structural satisfaction against the nested converter *)





(** What the two extra conditions are for.  [validate] reads [data[key]]
    through the prototype chain: [{}] is refused where [toString] is an
    optional string, the function it inherits being no string.  And a
    field that the schema declares under the name [__proto__] is never
    read: the empty object is accepted where the schema requires it. *)
Remark validate_reads_inherited_members :
  validate (toolWith (objectSchema [("toString", schemaOf "string")] None))
           (VObject []) = false
  /\ validate (toolWith (objectSchema [("__proto__", schemaOf "string")]
                                      (Some ["__proto__"])))
              (VObject []) = true.
Proof. split; reflexivity. Qed.

(** *** Nested objects *)

(** The nested converter never reads [required]. *)
Lemma convertPropertyToZod_ignores_required (p : SchemaProperty) req :
  convertPropertyToZod (withRequired p req) = convertPropertyToZod p.
Proof. destruct p. reflexivity. Qed.

Lemma read_prop o k v :
  prop o k = v -> v <> VUndefined -> read o k = Plain v.
Proof.
  intros Hprop Hv. destruct (hasOwn o k) eqn:E.
  - now rewrite read_own, Hprop.
  - rewrite prop_absent in Hprop by assumption. congruence.
Qed.

(** C10, as amended.  Whatever a nested object schema lists as required,
    [validate] refuses a value whose nested object lacks a declared field of
    one of the five kinds, neither the nested object nor the field being
    declared under the name [__proto__]: the nested converter does not read
    the nested [required] list. *)
Theorem nested_fields_are_required
  (tool : BaseTool) (o inner : list (string * Value))
  (k f : string) (nested field : SchemaProperty)
  (fields : list (string * SchemaProperty)) :
  typeIs (type (inputSchema tool)) "object" = true ->
  distinct (JS.keys (entriesOrEmpty (properties (inputSchema tool)))) = true ->
  own (entriesOrEmpty (properties (inputSchema tool))) k = Some nested ->
  k <> "__proto__" ->
  typeIs (type nested) "object" = true ->
  properties nested = Some fields ->
  distinct (JS.keys fields) = true ->
  own fields f = Some field ->
  f <> "__proto__" ->
  knownKind field = true ->
  prop o k = VObject inner ->
  hasOwn inner f = false ->
  validate tool (VObject o) = false
  /\ forall req,
       convertPropertyToZod (withRequired nested req)
       = convertPropertyToZod nested.
Proof.
  intros Hty Hd Hk Hkn Hnty Hfields Hdn Hf Hfn Hkind Hprop Habsent.
  split; [|intros req; apply convertPropertyToZod_ignores_required].
  rewrite validate_accepts, jsonSchemaToZod_object by assumption.
  apply (shape_refutes _ _ o k nested); try assumption.
  rewrite (read_prop o k (VObject inner)) by (assumption || discriminate).
  assert (Hnested : accepts (convertPropertyToZod nested) (VObject inner) = false).
  { rewrite (convert_object_distinct nested fields) by assumption.
    apply (shape_refutes _ _ inner f field); try assumption.
    cbn [snd]. rewrite read_absent by assumption.
    now apply known_rejects_inherited. }
  unfold topLevelEntry. cbn [fst snd].
  destruct (negb (requiredIncludes (required (inputSchema tool)) k));
    [cbn [accepts]|]; exact Hnested.
Qed.

Lemma nested_fields_are_required_witness :
  let tool := toolWith (optionsSchema "string" (Some [])) in
  requiredIncludes (Some []) "units" = false
  /\ "options" <> "__proto__"
  /\ "units" <> "__proto__"
  /\ validate tool (VObject [("options", VObject [])]) = false.
Proof.
  split; [reflexivity|]. split; [discriminate|]. split; [discriminate|].
  apply (proj1 (nested_fields_are_required
                  (toolWith (optionsSchema "string" (Some [])))
                  [("options", VObject [])] [] "options" "units"
                  (objectSchema [("units", schemaOf "string")] (Some []))
                  (schemaOf "string")
                  [("units", schemaOf "string")]
                  eq_refl eq_refl eq_refl
                  ltac:(discriminate)
                  eq_refl eq_refl eq_refl eq_refl
                  ltac:(discriminate)
                  eq_refl eq_refl eq_refl)).
Defined.

(** The claim of C10 as it is written fails for a nested field of another
    kind: [{options: {}}] is accepted although the nested schema declares
    [units] (of type [integer], which the converter turns into [z.any()]). *)
Lemma nested_fields_are_required_counterexample :
  let schema := optionsSchema "integer" None in
  own (entriesOrEmpty (properties schema)) "options"
  = Some (objectSchema [("units", schemaOf "integer")] None)
  /\ hasOwn ([] : list (string * Value)) "units" = false
  /\ validate (toolWith schema) (VObject [("options", VObject [])]) = true.
Proof. split; [|split]; reflexivity. Qed.

(** It fails for a nested field named [__proto__] as well, of whatever
    kind: assigning it to the shape sets the prototype of the shape and
    adds no key, so that the field is never read. *)
Remark nested_proto_field_is_not_read :
  let schema :=
    objectSchema [("options", objectSchema [("__proto__", schemaOf "string")]
                                           None)]
                 (Some ["options"]) in
  validate (toolWith schema) (VObject [("options", VObject [])]) = true.
Proof. reflexivity. Qed.

(** *** Fields the schema does not declare *)

Lemma own_distinct_In {A : Type} (ps : list (string * A)) k a :
  distinct (JS.keys ps) = true -> In (k, a) ps -> own ps k = Some a.
Proof.
  intros Hd. apply distinct_NoDup in Hd.
  induction ps as [|[k' a'] rest IH]; intros Hin; [destruct Hin|].
  inversion Hd as [|? ? Hk Hr]; subst. cbn.
  destruct Hin as [[= -> ->]|Hin].
  - now rewrite String.eqb_refl.
  - destruct (String.eqb k' k) eqn:E; [|auto].
    apply String.eqb_eq in E. subst k'. exfalso. apply Hk.
    unfold JS.keys. apply in_map_iff. now exists (k, a).
Qed.

Lemma forallb_agree {A : Type} (f g : A -> bool) (l : list A) :
  (forall x, In x l -> f x = g x) -> forallb f l = forallb g l.
Proof.
  induction l as [|x rest IH]; intros H; [reflexivity|].
  cbn. rewrite (H x) by now left. rewrite IH; [reflexivity|].
  intros y Hy. apply H. now right.
Qed.

Lemma declared_key {A : Type} (ps : list (string * A)) kp :
  In kp ps -> hasOwn ps (fst kp) = true.
Proof.
  intros Hin. apply hasOwn_keys. unfold JS.keys. now apply in_map.
Qed.

(** What a validator accepted at a key it still accepts once the field
    there has grown: where the value had no such field, it has none
    after, and a validator that took the inherited member takes
    [undefined]. *)
Lemma accepts_read_step z o k v' :
  k <> "__proto__" ->
  (prop o k = VUndefined -> v' = VUndefined) ->
  (accepts z (Plain (prop o k)) = true -> accepts z (Plain v') = true) ->
  accepts z (read o k) = true ->
  accepts z (Plain v') = true.
Proof.
  intros Hk Hundef Hstep. destruct (hasOwn o k) eqn:E.
  - now rewrite read_own.
  - rewrite read_absent by assumption.
    rewrite (Hundef (prop_absent o k E)).
    destruct (inherited_cases k Hk) as [-> | ->]; [|auto].
    apply accepts_function_undefined.
Qed.

(** Adding [k] to an object, or replacing the field at [k], against a shape
    listed entry by entry. *)
Section Shapes.
Variable f : string * SchemaProperty -> ZodType.
Variable ps : list (string * SchemaProperty).
Variables (o : list (string * Value)) (k : string).

Lemma shape_add_here x :
  hasOwn ps k = false ->
  forallb (fun kp => String.eqb (fst kp) "__proto__"
                     || accepts (f kp) (read (JS.set o k x) (fst kp))) ps
  = forallb (fun kp => String.eqb (fst kp) "__proto__"
                       || accepts (f kp) (read o (fst kp))) ps.
Proof.
  intros Hfresh. apply forallb_agree. intros kp Hin.
  rewrite read_set_other; [reflexivity|].
  intros ->. rewrite (declared_key ps kp Hin) in Hfresh. discriminate.
Qed.

Lemma shape_add_below field v' :
  distinct (JS.keys ps) = true ->
  own ps k = Some field ->
  (k <> "__proto__" ->
   accepts (f (k, field)) (read o k) = true ->
   accepts (f (k, field)) (Plain v') = true) ->
  forallb (fun kp => String.eqb (fst kp) "__proto__"
                     || accepts (f kp) (read o (fst kp))) ps = true ->
  forallb (fun kp => String.eqb (fst kp) "__proto__"
                     || accepts (f kp) (read (JS.set o k v') (fst kp))) ps
  = true.
Proof.
  intros Hd Hown Hstep Hall. rewrite forallb_forall in *.
  intros [k' p] Hin. cbn [fst]. specialize (Hall (k', p) Hin). cbn [fst] in Hall.
  destruct (String.eqb k' "__proto__") eqn:Eproto; [reflexivity|].
  cbn [orb] in *. apply String.eqb_neq in Eproto.
  destruct (String.eqb k k') eqn:E.
  - apply String.eqb_eq in E. subst k'.
    rewrite (own_distinct_In ps k p Hd Hin) in Hown. injection Hown as ->.
    rewrite read_set_same. auto.
  - apply String.eqb_neq in E. now rewrite read_set_other.
Qed.
End Shapes.

Lemma addsUndeclared_undefined s v v' :
  addsUndeclared s v v' -> v = VUndefined -> v' = VUndefined.
Proof.
  induction 1; intros Hv; try discriminate; auto.
Qed.

Lemma declares_some (s : SchemaProperty) k field :
  own (entriesOrEmpty (properties s)) k = Some field ->
  exists ps, properties s = Some ps /\ own ps k = Some field.
Proof.
  destruct (properties s) as [ps|]; cbn; [eauto|discriminate].
Qed.

Lemma addsUndeclared_nested s v v' :
  addsUndeclared s v v' ->
  wellFormed s = true ->
  accepts (convertPropertyToZod s) v = true ->
  accepts (convertPropertyToZod s) v' = true.
Proof.
  induction 1 as [s v|s o k x Hty Hfresh|s o k field v' Hty Hown Hsub IH
                 |s element before x x' after Hty Hits Hsub IH
                 |s v1 v2 v3 H12 IH12 H23 IH23];
    intros Hwf Hacc.
  - exact Hacc.
  - rewrite convert_object in * by assumption.
    destruct (properties s) as [ps|] eqn:Eps.
    + destruct (wellFormed_properties s ps Hwf Eps) as [Hd _].
      rewrite (fold_assign_shape (fun kp => convertPropertyToZod (snd kp))) in *
        by assumption.
      rewrite accepts_shape in *. cbn [entriesOrEmpty] in Hfresh.
      now rewrite shape_add_here.
    + cbn. apply forallb_forall. reflexivity.
  - destruct (declares_some s k field Hown) as [ps [Eps Hown']].
    destruct (wellFormed_properties s ps Hwf Eps) as [Hd Hwfps].
    rewrite (convert_object_distinct s ps) in * by assumption.
    rewrite accepts_shape in *.
    apply (shape_add_below _ ps o k field v'); try assumption.
    cbn [snd]. intros Hk. apply accepts_read_step; [assumption| |].
    + exact (addsUndeclared_undefined field _ v' Hsub).
    + apply IH. apply (Hwfps (k, field)). now apply own_In.
  - rewrite convert_array, Hits in * by assumption.
    cbn [accepts] in *. rewrite forallb_app in *. cbn [forallb] in *.
    apply andb_true_iff in Hacc as [Hb Hrest].
    apply andb_true_iff in Hrest as [Hx Ha].
    rewrite Hb, Ha, IH; auto. now apply (wellFormed_items s).
  - auto.
Qed.

(** C7.  A value that [validate] accepts is still accepted after fields
    that the schema does not declare are added to it, at the top level, in
    a nested object or in an object inside an array. *)
Theorem undeclared_fields_are_accepted (tool : BaseTool) (v v' : Value) :
  wellFormed (inputSchema tool) = true ->
  addsUndeclared (inputSchema tool) v v' ->
  validate tool v = true ->
  validate tool v' = true.
Proof.
  intros Hwf Hadds. rewrite !validate_accepts.
  destruct (typeIs (type (inputSchema tool)) "object") eqn:Eo;
    [|now rewrite jsonSchemaToZod_other].
  destruct (wellFormed_entries _ Hwf) as [Hd Hwfps].
  rewrite jsonSchemaToZod_object by assumption.
  remember (inputSchema tool) as schema eqn:Eschema. clear Eschema.
  induction Hadds as [s v|s o k x Hty Hfresh|s o k field v' Hty Hown Hsub _
                     |s element before x x' after Hty Hits Hsub _
                     |s v1 v2 v3 H12 IH12 H23 IH23];
    intros Hacc.
  - exact Hacc.
  - rewrite accepts_shape in *. now rewrite shape_add_here.
  - rewrite accepts_shape in *.
    apply (shape_add_below _ _ o k field v'); try assumption.
    intros Hk. apply accepts_read_step; [assumption| |].
    + exact (addsUndeclared_undefined field _ v' Hsub).
    + unfold topLevelEntry. cbn [fst snd].
      assert (Hfield : wellFormed field = true).
      { apply (Hwfps (k, field)). now apply own_In. }
      destruct (negb (requiredIncludes (required s) k)).
      * destruct (prop o k) eqn:Ep;
          try (intros Hc; apply accepts_optional;
               apply (addsUndeclared_nested field _ v' Hsub Hfield); exact Hc).
        intros _.
        now rewrite (addsUndeclared_undefined field _ v' Hsub eq_refl).
      * now apply addsUndeclared_nested.
  - apply typeIs_eq in Hty. apply typeIs_eq in Eo. congruence.
  - auto.
Qed.

Lemma undeclared_fields_are_accepted_witness :
  let tool := toolWith (optionsSchema "string" (Some ["units"])) in
  let v := VObject [("options", VObject [("units", VString "metric")])] in
  let v' := VObject [("options", VObject [("units", VString "metric");
                                          ("precision", VNumber 2)]);
                     ("verbose", VBool true)] in
  wellFormed (inputSchema tool) = true
  /\ validate tool v = true
  /\ validate tool v' = true.
Proof.
  split; [reflexivity|split; [reflexivity|]].
  apply (undeclared_fields_are_accepted
           (toolWith (optionsSchema "string" (Some ["units"])))
           (VObject [("options", VObject [("units", VString "metric")])]));
    [reflexivity| |reflexivity].
  apply add_more
    with (v2 := VObject [("options", VObject [("units", VString "metric");
                                               ("precision", VNumber 2)])]).
  - apply (add_below _ [("options", VObject [("units", VString "metric")])]
             "options" (objectSchema [("units", schemaOf "string")]
                                     (Some ["units"]))
             (VObject [("units", VString "metric"); ("precision", VNumber 2)]));
      [reflexivity|reflexivity|].
    apply (add_here _ [("units", VString "metric")] "precision" (VNumber 2));
      reflexivity.
  - apply (add_here _
             [("options", VObject [("units", VString "metric");
                                   ("precision", VNumber 2)])]
             "verbose" (VBool true)); reflexivity.
Defined.

(** ** The transport *)

Lemma executeTool_missing (target : string) (params : Value) (tools : Tools) :
  Map.has tools target = false ->
  executeTool (VString target) params tools
  = (inl (Throw Error ("Tool '" ^^ target ^^ "' not found")), tools).
Proof.
  intros H. apply hasOwn_false_own in H.
  unfold executeTool, bind, get, lift, throw. cbn [Map.getValue].
  unfold Map.get. now rewrite H.
Qed.

Lemma executeTool_invalid (target : string) (params : Value) (tools : Tools)
  (tool : BaseTool) :
  Map.get tools target = Some tool ->
  validate tool params = false ->
  executeTool (VString target) params tools
  = (inl (Throw Error ("Invalid parameters for tool '" ^^ target ^^ "'")),
     tools).
Proof.
  intros Hget Hv. unfold executeTool, bind, get, lift, throw.
  cbn [Map.getValue]. now rewrite Hget, Hv.
Qed.

Lemma executeTool_valid (target : string) (params : Value) (tools : Tools)
  (tool : BaseTool) :
  Map.get tools target = Some tool ->
  validate tool params = true ->
  executeTool (VString target) params tools = (execute tool params, tools).
Proof.
  intros Hget Hv. unfold executeTool, bind, get, lift, throw, try_catch, ret.
  cbn [Map.getValue]. rewrite Hget, Hv. cbn [negb].
  now destruct (execute tool params).
Qed.

(** The state of the server is the same after [executeTool]. *)
Lemma executeTool_state (name params : Value) (tools : Tools) :
  snd (executeTool name params tools) = tools.
Proof.
  unfold executeTool, bind, get, lift, throw, try_catch, ret.
  destruct (Map.getValue tools name) as [tool|].
  - destruct (validate tool params); cbn [negb].
    + now destruct (execute tool params).
    + now destruct (ToString name).
  - now destruct (ToString name).
Qed.

Lemma handleToolsCall_named (ps : list (string * Value)) (tools : Tools) :
  truthy (prop ps "name") = true ->
  handleToolsCall (VObject ps) tools
  = (inr (callResponse
            (fst (executeTool (prop ps "name")
                    (JS.or (prop ps "arguments") (VObject [])) tools))),
     tools).
Proof.
  intros Hname.
  pose proof (executeTool_state (prop ps "name")
                (JS.or (prop ps "arguments") (VObject [])) tools) as Hstate.
  unfold handleToolsCall, bind, lift, try_catch, ret, throw.
  cbn [Destructure]. rewrite Hname. cbn [negb].
  destruct (executeTool (prop ps "name")
              (JS.or (prop ps "arguments") (VObject [])) tools)
    as [[error|result] tools'].
  all: cbn [snd] in Hstate; subst tools'; reflexivity.
Qed.

Lemma parseMCPRequest_call (o ps : list (string * Value)) (tools : Tools) :
  prop o "method" = VString "tools/call" ->
  prop o "params" = VObject ps ->
  truthy (prop ps "name") = true ->
  parseMCPRequest (inr (VObject o)) tools = (inr (VObject o), tools).
Proof.
  intros Hm Hp Hn. unfold parseMCPRequest, bind, lift, throw, ret.
  cbn [Get]. rewrite Hm, Hp. cbn. now rewrite Hn.
Qed.

Lemma handleRequest_call (o ps : list (string * Value)) (tools : Tools) :
  prop o "method" = VString "tools/call" ->
  prop o "params" = VObject ps ->
  truthy (prop ps "name") = true ->
  handleRequest "POST" (inr (VObject o)) tools
  = (inr (sendSuccessResponse
            (callResponse
               (fst (executeTool (prop ps "name")
                       (JS.or (prop ps "arguments") (VObject [])) tools)))),
     tools).
Proof.
  intros Hm Hp Hn. unfold handleRequest.
  cbn [String.eqb Ascii.eqb Bool.eqb negb].
  unfold try_catch at 1. unfold bind at 1.
  rewrite (parseMCPRequest_call o ps) by assumption.
  unfold bind at 1. unfold routeRequest, try_catch, bind at 1, lift.
  cbn [Get]. rewrite Hm, Hp. cbn [strictEq String.eqb Ascii.eqb Bool.eqb].
  unfold bind. rewrite handleToolsCall_named by assumption. reflexivity.
Qed.

(** C1, as amended.  With the method [tools/call], the request for
    [get-weather] with the arguments [{location: London}] parses, passes
    validation against the location schema and runs the registered tool;
    the value the tool returns is the [result] of the response, unchanged. *)
Theorem call_get_weather_succeeds (tools : Tools) (tool : BaseTool)
  (returned : Value) :
  Map.get tools "get-weather" = Some tool ->
  inputSchema tool = locationSchema ->
  execute tool london = inr returned ->
  parseMCPRequest (inr (callRequest "tools/call" "get-weather" london)) tools
  = (inr (callRequest "tools/call" "get-weather" london), tools)
  /\ validate tool london = true
  /\ handleRequest "POST"
       (inr (callRequest "tools/call" "get-weather" london)) tools
     = (inr {| statusCode := 200;
               body := MCPBody {| result := Some returned; error := None |} |},
        tools).
Proof.
  intros Hget Hschema Hexec.
  assert (Hvalid : validate tool london = true).
  { unfold validate. rewrite Hschema. reflexivity. }
  split; [reflexivity|split; [exact Hvalid|]].
  unfold callRequest.
  rewrite (handleRequest_call _ [("name", VString "get-weather");
                                 ("arguments", london)])
    by reflexivity.
  change (prop _ "name") with (VString "get-weather").
  change (JS.or _ _) with london.
  rewrite (executeTool_valid "get-weather" london tools tool) by assumption.
  cbn [fst]. now rewrite Hexec.
Qed.

Lemma call_get_weather_succeeds_witness :
  Map.get [("get-weather", echoTool)] "get-weather" = Some echoTool
  /\ execute echoTool london = inr (VObject [("echo", VString "London")])
  /\ handleRequest "POST"
       (inr (callRequest "tools/call" "get-weather" london))
       [("get-weather", echoTool)]
     = (inr {| statusCode := 200;
               body := MCPBody
                         {| result := Some (VObject [("echo", VString "London")]);
                            error := None |} |},
        [("get-weather", echoTool)]).
Proof.
  split; [reflexivity|split; [reflexivity|]].
  exact (proj2 (proj2 (call_get_weather_succeeds
                         [("get-weather", echoTool)] echoTool
                         (VObject [("echo", VString "London")])
                         eq_refl eq_refl eq_refl))).
Defined.

(** The claim of C1 as it is written fails: the method [call] is not one
    the transport knows, and the request is answered with an error. *)
Lemma call_get_weather_counterexample :
  fst (handleRequest "POST"
         (inr (callRequest "call" "get-weather" london))
         [("get-weather", echoTool)])
  = inr {| statusCode := 400;
           body := MCPBody
                     {| result := None;
                        error := Some {| code := 400;
                                         message :=
                                           "BAD_REQUEST: Unsupported method: call" |} |} |}
  /\ fst (handleRequest "POST"
            (inr (callRequest "call" "get-weather" london))
            [("get-weather", echoTool)])
     <> inr {| statusCode := 200;
               body := MCPBody
                         {| result := Some (VObject [("echo", VString "London")]);
                            error := None |} |}.
Proof. split; [reflexivity|discriminate]. Qed.

(** C5, as amended.  A [tools/call] request that names a tool the server
    does not hold is answered with an error of code [-32603] whose message
    gives the requested name, and the tool map is left as it was. *)
Theorem unknown_tool_is_reported (tools : Tools)
  (o ps : list (string * Value)) (target : string) :
  prop o "method" = VString "tools/call" ->
  prop o "params" = VObject ps ->
  prop ps "name" = VString target ->
  target <> "" ->
  Map.has tools target = false ->
  handleRequest "POST" (inr (VObject o)) tools
  = (inr {| statusCode := 200;
            body := MCPBody
                      {| result := None;
                         error := Some {| code := -32603;
                                          message :=
                                            "Tool '" ^^ target ^^ "' not found" |} |} |},
     tools).
Proof.
  intros Hm Hp Hn Hne Hmissing.
  assert (Htruthy : truthy (prop ps "name") = true).
  { rewrite Hn. cbn. now apply negb_true_iff, String.eqb_neq. }
  rewrite (handleRequest_call o ps) by assumption.
  rewrite Hn, executeTool_missing by assumption. reflexivity.
Qed.

Lemma unknown_tool_is_reported_witness :
  Map.has [("get-weather", echoTool)] "does-not-exist" = false
  /\ handleRequest "POST"
       (inr (callRequest "tools/call" "does-not-exist" london))
       [("get-weather", echoTool)]
     = (inr {| statusCode := 200;
               body := MCPBody
                         {| result := None;
                            error := Some {| code := -32603;
                                             message :=
                                               "Tool 'does-not-exist' not found" |} |} |},
        [("get-weather", echoTool)]).
Proof.
  split; [reflexivity|].
  apply (unknown_tool_is_reported [("get-weather", echoTool)]
           [("method", VString "tools/call");
            ("params", VObject [("name", VString "does-not-exist");
                                ("arguments", london)])]
           [("name", VString "does-not-exist"); ("arguments", london)]
           "does-not-exist");
    try reflexivity.
  discriminate.
Defined.

(** The claim of C5 as it is written fails: the error carries the number
    [-32603] as its code and a message that names the requested tool only;
    the registered name [get-weather] is nowhere in it. *)
Lemma unknown_tool_counterexample :
  let answer :=
    fst (handleRequest "POST"
           (inr (callRequest "tools/call" "does-not-exist" london))
           [("get-weather", echoTool)]) in
  exists out,
    answer = inr out
    /\ errorCodeOnWire out = Some (VNumber (-32603))
    /\ errorCodeOnWire out <> Some (VString "ToolNotFoundError")
    /\ errorMessageOnWire out = Some "Tool 'does-not-exist' not found"
    /\ option_map (includes "get-weather") (errorMessageOnWire out) = Some false.
Proof.
  eexists. split; [reflexivity|].
  split; [reflexivity|split; [discriminate|split; reflexivity]].
Qed.

(** C6, as amended.  When the arguments of a call fail validation,
    [validate] has answered [false] and the response is an error of code
    [-32603] whose message names the tool; the tool map is left as it was. *)
Theorem invalid_arguments_are_reported (tools : Tools)
  (o ps : list (string * Value)) (target : string) (tool : BaseTool) :
  prop o "method" = VString "tools/call" ->
  prop o "params" = VObject ps ->
  prop ps "name" = VString target ->
  target <> "" ->
  Map.get tools target = Some tool ->
  validate tool (JS.or (prop ps "arguments") (VObject [])) = false ->
  handleRequest "POST" (inr (VObject o)) tools
  = (inr {| statusCode := 200;
            body := MCPBody
                      {| result := None;
                         error := Some {| code := -32603;
                                          message :=
                                            "Invalid parameters for tool '"
                                            ^^ target ^^ "'" |} |} |},
     tools).
Proof.
  intros Hm Hp Hn Hne Hget Hinvalid.
  assert (Htruthy : truthy (prop ps "name") = true).
  { rewrite Hn. cbn. now apply negb_true_iff, String.eqb_neq. }
  rewrite (handleRequest_call o ps) by assumption.
  rewrite Hn, (executeTool_invalid target _ tools tool) by assumption.
  reflexivity.
Qed.

Lemma invalid_arguments_are_reported_witness :
  validate echoTool (JS.or (VObject []) (VObject [])) = false
  /\ handleRequest "POST"
       (inr (callRequest "tools/call" "get-weather" (VObject [])))
       [("get-weather", echoTool)]
     = (inr {| statusCode := 200;
               body := MCPBody
                         {| result := None;
                            error := Some {| code := -32603;
                                             message :=
                                               "Invalid parameters for tool 'get-weather'" |} |} |},
        [("get-weather", echoTool)]).
Proof.
  split; [reflexivity|].
  apply (invalid_arguments_are_reported [("get-weather", echoTool)]
           [("method", VString "tools/call");
            ("params", VObject [("name", VString "get-weather");
                                ("arguments", VObject [])])]
           [("name", VString "get-weather"); ("arguments", VObject [])]
           "get-weather" echoTool);
    try reflexivity.
  discriminate.
Defined.

(** The claim of C6 as it is written fails: two calls whose arguments break
    the schema at different paths get the same answer from [validate] and
    the same response, an error made of a code and a message. *)
Lemma invalid_arguments_counterexample :
  let tool := toolWith (optionsSchema "string" (Some ["units"])) in
  let missingOptions := VObject [] in
  let missingUnits := VObject [("options", VObject [])] in
  let answer args :=
    fst (handleRequest "POST" (inr (callRequest "tools/call" "configure" args))
           [("configure", tool)]) in
  issues (jsonSchemaToZod (inputSchema tool)) [] missingOptions
  = [mkIssue [Key "options"] PObject PUndefined]
  /\ issues (jsonSchemaToZod (inputSchema tool)) [] missingUnits
     = [mkIssue [Key "options"; Key "units"] PString PUndefined]
  /\ validate tool missingOptions = false
  /\ validate tool missingUnits = false
  /\ answer missingOptions = answer missingUnits
  /\ exists out r,
       answer missingUnits = inr out
       /\ body out = MCPBody r
       /\ MCPResponse_value r
          = VObject [("error",
                      VObject [("code", VNumber (-32603));
                               ("message",
                                VString "Invalid parameters for tool 'configure'")])].
Proof.
  repeat (split; [reflexivity|]).
  eexists _, _. repeat (split; [reflexivity|]). reflexivity.
Qed.

(** Induction on a value, through arrays and objects. *)
Lemma Value_nested_ind (P : Value -> Prop) :
  P VUndefined -> P VNull ->
  (forall b, P (VBool b)) -> (forall n, P (VNumber n)) ->
  (forall s, P (VString s)) ->
  (forall l, Forall P l -> P (VArray l)) ->
  (forall o, Forall (fun kv => P (snd kv)) o -> P (VObject o)) ->
  forall v, P v.
Proof.
  intros HU HN HB HZ HS HA HO.
  fix IH 1. intros [| |b|n|s|l|o].
  - exact HU.
  - exact HN.
  - apply HB.
  - apply HZ.
  - apply HS.
  - apply HA. induction l as [|x rest IHl]; constructor.
    + apply IH.
    + exact IHl.
  - apply HO. induction o as [|[k x] rest IHo]; constructor.
    + apply IH.
    + exact IHo.
Qed.

(** [ToString] can only fail with a [TypeError]. *)
Lemma ToString_throws (v : Value) :
  forall t, ToString v = inl t ->
            t = Throw TypeError "Cannot convert object to primitive value".
Proof.
  induction v as [| |b|n|s|l IHl|o _] using Value_nested_ind;
    intros t; cbn [ToString].
  - discriminate.
  - discriminate.
  - destruct b; discriminate.
  - discriminate.
  - discriminate.
  - induction IHl as [|x rest Hx Hrest IHrest]; [discriminate|].
    destruct (match x with
              | VUndefined | VNull => inr ""
              | _ => ToString x
              end) as [t'|shown] eqn:Ex.
    + intros [= <-]. destruct x; try discriminate; now apply Hx in Ex.
    + destruct rest as [|y rest']; [discriminate|].
      match goal with
      | |- match ?j with inl _ => _ | inr _ => _ end = _ -> _ =>
          destruct j as [t'|tail] eqn:Ej
      end.
      * intros [= <-]. now apply IHrest.
      * discriminate.
  - destruct (hasOwn o "toString"); [now intros [= <-]|discriminate].
Qed.

(** Parsing a payload without a known method throws an error that is not a
    [SyntaxError], whatever the tool map is. *)
Lemma parseMCPRequest_unrecognised (payload : Value) :
  recognisedMethod payload = false ->
  exists class msg,
    class <> SyntaxError
    /\ forall tools,
         parseMCPRequest (inr payload) tools = (inl (Throw class msg), tools).
Proof.
  unfold recognisedMethod. intros H.
  apply orb_false_iff in H as [Hlist Hcall].
  unfold parseMCPRequest, bind, lift, throw, ret.
  destruct payload as [| |b|n|s|l|o]; cbn [Get GetOptional] in *.
  1-6: eexists _, _; (split; [|intros tools; reflexivity]); discriminate.
  rewrite Hlist, Hcall. cbn [negb andb].
  destruct (truthy (prop o "method")); cbn [negb].
  - destruct (ToString (prop o "method")) as [t|shown] eqn:Es.
    + apply ToString_throws in Es. subst t.
      eexists _, _. split; [|intros tools; reflexivity]. discriminate.
    + eexists _, _. split; [|intros tools; reflexivity]. discriminate.
  - eexists _, _. split; [|intros tools; reflexivity]. discriminate.
Qed.

(** C4, as amended.  A decoded payload whose method is absent or is not
    one of [tools/list] and [tools/call] is answered with status 400 and an
    error of code 400 whose message starts with [BAD_REQUEST: ]; the answer
    is the same whatever the tool map holds, and the map is left as it was. *)
Theorem unrecognised_method_is_rejected (payload : Value) :
  recognisedMethod payload = false ->
  exists msg,
    forall tools : Tools,
      handleRequest "POST" (inr payload) tools
      = (inr {| statusCode := 400;
                body := MCPBody
                          {| result := None;
                             error := Some {| code := 400;
                                              message := "BAD_REQUEST: " ^^ msg |} |} |},
         tools).
Proof.
  intros H.
  destruct (parseMCPRequest_unrecognised payload H) as [class [msg [Hclass Hparse]]].
  exists msg. intros tools. unfold handleRequest.
  cbn [String.eqb Ascii.eqb Bool.eqb negb].
  unfold try_catch, bind at 1. rewrite Hparse.
  destruct class; [reflexivity|contradiction|reflexivity].
Qed.

Lemma unrecognised_method_is_rejected_witness :
  recognisedMethod (VObject [("method", VString "unknown")]) = false
  /\ exists msg,
       forall tools : Tools,
         handleRequest "POST" (inr (VObject [("method", VString "unknown")])) tools
         = (inr {| statusCode := 400;
                   body := MCPBody
                             {| result := None;
                                error := Some {| code := 400;
                                                 message := "BAD_REQUEST: " ^^ msg |} |} |},
            tools).
Proof.
  split; [reflexivity|].
  exact (unrecognised_method_is_rejected
           (VObject [("method", VString "unknown")]) eq_refl).
Defined.

(** The claim of C4 as it is written fails: the code of the error that
    answers [{method: unknown}] is the number 400, not a kind tag. *)
Lemma unrecognised_method_counterexample :
  let answer :=
    fst (handleRequest "POST" (inr (VObject [("method", VString "unknown")]))
           [("get-weather", echoTool)]) in
  exists out,
    answer = inr out
    /\ errorCodeOnWire out = Some (VNumber 400)
    /\ errorCodeOnWire out <> Some (VString "TransportError")
    /\ errorMessageOnWire out = Some "BAD_REQUEST: Unsupported method: unknown".
Proof.
  eexists. split; [reflexivity|].
  split; [reflexivity|split; [discriminate|reflexivity]].
Qed.

(** ** The two arms of a response *)














(* ================================================================== *)
(** * Further properties of the gateway *)

(** ** The tool map *)

Lemma registerTool_keys (tool : BaseTool) (tools : Tools) :
  NoDup (Map.keys tools) ->
  (forall k t, Map.get tools k = Some t -> name t = k) ->
  NoDup (Map.keys (snd (registerTool tool tools)))
  /\ (forall k t, Map.get (snd (registerTool tool tools)) k = Some t ->
                  name t = k).
Proof.
  intros Hnd Hnames.
  destruct (Map.has tools (name tool)) eqn:H.
  - rewrite registerTool_present by assumption. now split.
  - rewrite registerTool_fresh by assumption. cbn [snd]. split.
    + unfold Map.keys, JS.keys in *. rewrite map_app. cbn.
      apply NoDup_app; [assumption|repeat constructor; intros []|].
      intros k Hin [<-|[]].
      apply (hasOwn_keys tools) in Hin. unfold Map.has in H. congruence.
    + intros k t. unfold Map.get.
      destruct (hasOwn tools k) eqn:Hk.
      * intros Hget. apply Hnames. unfold Map.get.
        revert Hget. clear -Hk. unfold hasOwn in Hk.
        induction tools as [|[k' t'] rest IH]; cbn in *; [discriminate|].
        destruct (String.eqb k' k); [trivial|]. now apply IH.
      * rewrite own_app_fresh by assumption. cbn.
        destruct (String.eqb (name tool) k) eqn:E; [|discriminate].
        apply String.eqb_eq in E. now intros [= <-].
Qed.

(** X1.  Whatever registrations are attempted on a fresh server, failed
    ones included, the map never holds a name twice and every tool sits
    under its own name. *)
Theorem registry_names_stay_distinct (attempts : list BaseTool) :
  NoDup (Map.keys (afterAttempts attempts MCPServer_new))
  /\ forall k t,
       Map.get (afterAttempts attempts MCPServer_new) k = Some t ->
       name t = k.
Proof.
  unfold afterAttempts.
  assert (H : NoDup (Map.keys MCPServer_new)
              /\ forall k t, Map.get MCPServer_new k = Some t -> name t = k).
  { split; [constructor|discriminate]. }
  revert H. generalize MCPServer_new.
  induction attempts as [|tool rest IH]; intros start [Hnd Hnames].
  - now split.
  - cbn [fold_left]. apply IH. now apply registerTool_keys.
Qed.

Lemma registry_names_stay_distinct_witness :
  NoDup (Map.keys (afterAttempts [echoTool; echoTool] MCPServer_new))
  /\ name echoTool = "get-weather".
Proof.
  destruct (registry_names_stay_distinct [echoTool; echoTool]) as [H1 H2].
  split; [exact H1|]. apply (H2 "get-weather" echoTool). reflexivity.
Defined.

(** X2.  Registering a tool under a name the server does not hold makes
    the name known and the tool the one that is looked up, and changes the
    lookup of no other name. *)
Theorem registerTool_then_lookup (tool : BaseTool) (tools : Tools) :
  Map.has tools (name tool) = false ->
  let tools' := snd (registerTool tool tools) in
  hasTool (name tool) tools' = (inr true, tools')
  /\ Map.get tools' (name tool) = Some tool
  /\ forall other, other <> name tool ->
                   Map.get tools' other = Map.get tools other
                   /\ hasTool other tools' = (inr (Map.has tools other), tools').
Proof.
  intros Hfresh tools'. subst tools'.
  rewrite registerTool_fresh by assumption. cbn [snd].
  assert (Hget : Map.get (tools ++ [(name tool, tool)]) (name tool) = Some tool).
  { unfold Map.get. rewrite own_app_fresh by assumption. cbn.
    now rewrite String.eqb_refl. }
  assert (Hother : forall other, other <> name tool ->
            Map.get (tools ++ [(name tool, tool)]) other = Map.get tools other).
  { intros other Hne. unfold Map.get. rewrite <- (set_fresh tools) by assumption.
    apply own_set_other. congruence. }
  split; [|split; [exact Hget|]].
  - unfold hasTool, bind, get, ret, Map.has, hasOwn. cbn beta iota.
    unfold Map.get in Hget. now rewrite Hget.
  - intros other Hne. split; [now apply Hother|].
    unfold hasTool, bind, get, ret, Map.has, hasOwn. cbn beta iota.
    specialize (Hother other Hne). unfold Map.get in Hother. now rewrite Hother.
Qed.

Lemma registerTool_then_lookup_witness :
  Map.has MCPServer_new (name echoTool) = false
  /\ Map.get (snd (registerTool echoTool MCPServer_new)) "get-weather"
     = Some echoTool.
Proof.
  split; [reflexivity|].
  exact (proj1 (proj2 (registerTool_then_lookup echoTool MCPServer_new eq_refl))).
Defined.

(** ** The transport *)

Lemma parseMCPRequest_list (o : list (string * Value)) (tools : Tools) :
  prop o "method" = VString "tools/list" ->
  parseMCPRequest (inr (VObject o)) tools = (inr (VObject o), tools).
Proof.
  intros Hm. unfold parseMCPRequest, bind, lift, throw, ret.
  cbn [Get]. now rewrite Hm.
Qed.

(** X3.  A [tools/list] request, whatever else it carries, is answered
    with status 200 and the definitions of the registered tools in
    registration order; the tool map is left as it was. *)
Theorem list_request_is_answered (o : list (string * Value)) (tools : Tools) :
  prop o "method" = VString "tools/list" ->
  handleRequest "POST" (inr (VObject o)) tools
  = (inr {| statusCode := 200;
            body := MCPBody
                      {| result :=
                           Some (VObject
                                   [("tools",
                                     VArray
                                       (map (fun kt =>
                                               ToolDefinition_value
                                                 (getToolDefinition (snd kt)))
                                            tools))]);
                         error := None |} |},
     tools).
Proof.
  intros Hm. unfold handleRequest.
  cbn [String.eqb Ascii.eqb Bool.eqb negb].
  unfold try_catch at 1. unfold bind at 1.
  rewrite parseMCPRequest_list by assumption.
  unfold bind at 1. unfold routeRequest, try_catch, bind at 1, lift.
  cbn [Get]. rewrite Hm. cbn [strictEq String.eqb Ascii.eqb Bool.eqb].
  unfold handleToolsList, listTools, bind, get, ret, Map.values, JS.values.
  cbn beta iota. now rewrite !map_map.
Qed.

Lemma list_request_is_answered_witness :
  exists out,
    handleRequest "POST"
      (inr (VObject [("method", VString "tools/list"); ("params", VNull)]))
      [("get-weather", echoTool)]
    = (inr out, [("get-weather", echoTool)])
    /\ statusCode out = 200%Z.
Proof.
  eexists. split.
  - apply (list_request_is_answered
             [("method", VString "tools/list"); ("params", VNull)]
             [("get-weather", echoTool)]).
    reflexivity.
  - reflexivity.
Defined.

(** X4.  A [tools/call] request without a usable [params.name] (no
    [params], no [name], or a falsy one) is refused with status 400 before
    the tool map is looked at. *)
Theorem call_without_name_is_rejected (o : list (string * Value)) :
  prop o "method" = VString "tools/call" ->
  truthy (GetOptional (prop o "params") "name") = false ->
  forall tools : Tools,
    handleRequest "POST" (inr (VObject o)) tools
    = (inr {| statusCode := 400;
              body := MCPBody
                        {| result := None;
                           error :=
                             Some {| code := 400;
                                     message :=
                                       "BAD_REQUEST: Missing required field: params.name for tools/call" |} |} |},
       tools).
Proof.
  intros Hm Hname tools. unfold handleRequest.
  cbn [String.eqb Ascii.eqb Bool.eqb negb].
  unfold try_catch at 1. unfold bind at 1.
  unfold parseMCPRequest, bind, lift, throw. cbn [Get].
  rewrite Hm. cbn. now rewrite Hname.
Qed.

Lemma call_without_name_is_rejected_witness :
  truthy (GetOptional
            (prop [("method", VString "tools/call");
                   ("params", VObject [("name", VString "")])] "params")
            "name") = false
  /\ fst (handleRequest "POST"
            (inr (VObject [("method", VString "tools/call");
                           ("params", VObject [("name", VString "")])]))
            [("get-weather", echoTool)])
     = inr (sendErrorResponse 400 "BAD_REQUEST"
              "Missing required field: params.name for tools/call").
Proof.
  split; [reflexivity|].
  rewrite (call_without_name_is_rejected
             [("method", VString "tools/call");
              ("params", VObject [("name", VString "")])]
             eq_refl eq_refl [("get-weather", echoTool)]).
  reflexivity.
Defined.

(** X5.  A body that cannot be read or decoded is answered without the
    tool map being looked at: a [SyntaxError] with status and code 400 and
    the fixed message [INVALID_JSON: Request body must be valid JSON], which
    hides the parser's own; any other [Error] with status and code 400 and
    [BAD_REQUEST: ] before its message; anything else with status and code
    500 and [INTERNAL_ERROR: An unexpected error occurred]. *)
Theorem undecodable_body_is_classified (thrown : Thrown) (tools : Tools) :
  handleRequest "POST" (inl thrown) tools
  = (inr (match thrown with
          | Throw SyntaxError _ =>
              {| statusCode := 400;
                 body :=
                   MCPBody
                     {| result := None;
                        error :=
                          Some {| code := 400;
                                  message :=
                                    "INVALID_JSON: Request body must be valid JSON"
                               |} |} |}
          | Throw _ msg =>
              {| statusCode := 400;
                 body :=
                   MCPBody
                     {| result := None;
                        error :=
                          Some {| code := 400;
                                  message := "BAD_REQUEST: " ^^ msg |} |} |}
          | ThrowValue _ =>
              {| statusCode := 500;
                 body :=
                   MCPBody
                     {| result := None;
                        error :=
                          Some {| code := 500;
                                  message :=
                                    "INTERNAL_ERROR: An unexpected error occurred"
                               |} |} |}
          end),
     tools).
Proof.
  unfold handleRequest. cbn [String.eqb Ascii.eqb Bool.eqb negb].
  unfold try_catch, bind, parseMCPRequest, lift.
  destruct thrown as [[| |] msg|v]; reflexivity.
Qed.

(** X6.  A request that is not a POST is answered without its body or
    any tool being looked at: OPTIONS with an empty 200, GET with the
    health report and its tool count, any other method with 405. *)
Theorem other_methods_ignore_the_body (req_method : string)
  (decoded : Thrown + Value) (tools : Tools) :
  req_method <> "POST" ->
  handleRequest req_method decoded tools
  = (inr (if String.eqb req_method "OPTIONS" then
            {| statusCode := 200; body := NoBody |}
          else if String.eqb req_method "GET" then
            {| statusCode := 200; body := HealthStatus (length tools) |}
          else
            {| statusCode := 405;
               body := MCPBody
                         {| result := None;
                            error :=
                              Some {| code := 405;
                                      message :=
                                        "METHOD_NOT_ALLOWED: Only GET and POST requests are supported" |} |} |}),
     tools).
Proof.
  intros Hne. unfold handleRequest.
  destruct (String.eqb req_method "OPTIONS"); [reflexivity|].
  destruct (String.eqb req_method "GET"); [reflexivity|].
  destruct (String.eqb req_method "POST") eqn:E; [|reflexivity].
  apply String.eqb_eq in E. contradiction.
Qed.

Lemma other_methods_ignore_the_body_witness :
  "DELETE" <> "POST"
  /\ fst (handleRequest "DELETE"
            (inr (callRequest "tools/call" "get-weather" london))
            [("get-weather", echoTool)])
     = inr (sendErrorResponse 405 "METHOD_NOT_ALLOWED"
              "Only GET and POST requests are supported").
Proof.
  assert (H : "DELETE" <> "POST") by discriminate.
  split; [exact H|].
  rewrite (other_methods_ignore_the_body "DELETE"
             (inr (callRequest "tools/call" "get-weather" london))
             [("get-weather", echoTool)] H).
  reflexivity.
Defined.



(** X8.  When a call gives no arguments, or gives [null], [false], [0] or
    the empty string, the tool is validated and run on the empty object. *)
Theorem missing_arguments_default_to_empty (tools : Tools)
  (o ps : list (string * Value)) (target : string) (tool : BaseTool) :
  prop o "method" = VString "tools/call" ->
  prop o "params" = VObject ps ->
  prop ps "name" = VString target ->
  target <> "" ->
  truthy (prop ps "arguments") = false ->
  Map.get tools target = Some tool ->
  handleRequest "POST" (inr (VObject o)) tools
  = (inr (sendSuccessResponse
            (callResponse
               (if validate tool (VObject [])
                then execute tool (VObject [])
                else inl (Throw Error
                            ("Invalid parameters for tool '" ^^ target ^^ "'"))))),
     tools).
Proof.
  intros Hm Hp Hn Hne Hfalsy Hget.
  assert (Hname : truthy (prop ps "name") = true).
  { rewrite Hn. cbn. now apply negb_true_iff, String.eqb_neq. }
  rewrite (handleRequest_call o ps) by assumption.
  rewrite Hn. unfold JS.or. rewrite Hfalsy.
  destruct (validate tool (VObject [])) eqn:Hv.
  - now rewrite (executeTool_valid target _ tools tool).
  - now rewrite (executeTool_invalid target _ tools tool).
Qed.

Lemma missing_arguments_default_to_empty_witness :
  let tool := toolWith (objectSchema [("verbose", schemaOf "boolean")] None) in
  truthy (prop [("name", VString "configure")] "arguments") = false
  /\ fst (handleRequest "POST"
            (inr (VObject [("method", VString "tools/call");
                           ("params", VObject [("name", VString "configure")])]))
            [("configure", tool)])
     = inr {| statusCode := 200;
              body := MCPBody {| result := Some (VObject []);
                                 error := None |} |}.
Proof.
  cbv zeta. split; [reflexivity|].
  rewrite (missing_arguments_default_to_empty
             [("configure",
               toolWith (objectSchema [("verbose", schemaOf "boolean")] None))]
             [("method", VString "tools/call");
              ("params", VObject [("name", VString "configure")])]
             [("name", VString "configure")]
             "configure"
             (toolWith (objectSchema [("verbose", schemaOf "boolean")] None)));
    try reflexivity.
  discriminate.
Defined.








(** The same for a payload that is refused and for a body whose reading
    rejected with something that is no [Error]. *)
Remark status_and_error_code_examples :
  handleRequest "POST" (inr (VObject [("method", VString "unknown")])) []
  = (inr {| statusCode := 400;
            body :=
              MCPBody {| result := None;
                         error :=
                           Some {| code := 400;
                                   message :=
                                     "BAD_REQUEST: Unsupported method: unknown"
                                |} |} |},
     [])
  /\ handleRequest "POST" (inl (ThrowValue (VString "closed"))) []
     = (inr {| statusCode := 500;
               body :=
                 MCPBody {| result := None;
                            error :=
                              Some {| code := 500;
                                      message :=
                                        "INTERNAL_ERROR: An unexpected error occurred"
                                   |} |} |},
        [])
  /\ handleRequest "DELETE" (inr VNull) []
     = (inr {| statusCode := 405;
               body :=
                 MCPBody {| result := None;
                            error :=
                              Some {| code := 405;
                                      message :=
                                        "METHOD_NOT_ALLOWED: Only GET and POST requests are supported"
                                   |} |} |},
        []).
Proof. repeat split. Qed.

(** ** The validator, once more *)

Lemma wrong_kind_is_refused (field : SchemaProperty) (x : Value) :
  knownKind field = true ->
  hasKind field x = false ->
  accepts (convertPropertyToZod field) x = false.
Proof.
  destruct field as [ty desc en its props req].
  unfold knownKind, hasKind. cbn [type].
  intros H. repeat (apply orb_true_iff in H; destruct H as [H|H]);
    kind_of H; cbn; destruct x; try discriminate; try reflexivity.
  all: try (now destruct its); now destruct props.
Qed.

(** X10.  [validate] does not coerce.  Against an object schema, a value
    that is not an object is refused; and so is an object in which a field
    declared with one of the five kinds, under a name other than
    [__proto__], holds a value of another type, whether the field is
    required or not (an absent optional field apart). *)
Theorem validate_does_not_coerce (tool : BaseTool) :
  typeIs (type (inputSchema tool)) "object" = true ->
  distinct (JS.keys (entriesOrEmpty (properties (inputSchema tool)))) = true ->
  (forall v, hasKind (inputSchema tool) v = false -> validate tool v = false)
  /\ (forall o k field,
         own (entriesOrEmpty (properties (inputSchema tool))) k = Some field ->
         k <> "__proto__" ->
         knownKind field = true ->
         hasKind field (prop o k) = false ->
         prop o k <> VUndefined
         \/ requiredIncludes (required (inputSchema tool)) k = true ->
         validate tool (VObject o) = false).
Proof.
  intros Hty Hd. split.
  - intros v Hkind. rewrite validate_accepts, jsonSchemaToZod_object
      by assumption.
    unfold hasKind in Hkind. apply typeIs_eq in Hty. rewrite Hty in Hkind.
    cbn in Hkind. destruct v; (discriminate || reflexivity).
  - intros o k field Hown Hk Hknown Hkind Hpresent.
    rewrite validate_accepts, jsonSchemaToZod_object by assumption.
    apply (shape_refutes _ _ o k field); try assumption.
    unfold topLevelEntry. cbn [fst snd].
    pose proof (wrong_kind_is_refused field (prop o k) Hknown Hkind) as Hno.
    destruct (hasOwn o k) eqn:Eown.
    + rewrite read_own by assumption.
      destruct (requiredIncludes (required (inputSchema tool)) k); cbn [negb].
      * exact Hno.
      * destruct Hpresent as [Hp|Hp]; [|discriminate].
        cbn [accepts]. destruct (prop o k); try exact Hno. contradiction.
    + destruct Hpresent as [Hp|Hp].
      * now rewrite prop_absent in Hp.
      * rewrite Hp. cbn [negb]. rewrite read_absent by assumption.
        now apply known_rejects_inherited.
Qed.

Lemma validate_does_not_coerce_witness :
  let tool := toolWith (objectSchema [("count", schemaOf "number")] None) in
  hasKind (schemaOf "number") (VString "5") = false
  /\ "count" <> "__proto__"
  /\ validate tool (VObject [("count", VString "5")]) = false
  /\ validate tool (VArray []) = false.
Proof.
  cbv zeta. split; [reflexivity|]. split; [discriminate|]. split.
  - apply (proj2 (validate_does_not_coerce
                    (toolWith (objectSchema [("count", schemaOf "number")] None))
                    eq_refl eq_refl)
             [("count", VString "5")] "count" (schemaOf "number"));
      try reflexivity; [discriminate|].
    left. discriminate.
  - apply (proj1 (validate_does_not_coerce
                    (toolWith (objectSchema [("count", schemaOf "number")] None))
                    eq_refl eq_refl)).
    reflexivity.
Defined.

(** Under the name [__proto__] nothing is checked: the string ["5"] goes
    through where the schema declares a number. *)
Remark proto_field_is_not_checked :
  validate (toolWith (objectSchema [("__proto__", schemaOf "number")] None))
           (VObject [("__proto__", VString "5")]) = true.
Proof. reflexivity. Qed.

Lemma closedSchema_known (p : SchemaProperty) :
  closedSchema p = true -> knownKind p = true.
Proof.
  destruct p as [ty desc en its props req]. cbn [closedSchema].
  intros H. apply andb_true_iff in H as [H _].
  now apply andb_true_iff in H as [H _].
Qed.

Lemma closedSchema_parts ty desc en its props req :
  closedSchema (mkSchemaProperty ty desc en its props req) = true ->
  match its with Some it => closedSchema it = true | None => True end
  /\ match props with
     | Some ps =>
         requiredDeclared req ps = true
         /\ forall kp, In kp ps -> closedSchema (snd kp) = true
     | None => requiredDeclared req [] = true
     end.
Proof.
  cbn [closedSchema]. intros H.
  apply andb_true_iff in H as [H Hprops].
  apply andb_true_iff in H as [_ Hits]. split.
  - now destruct its.
  - destruct props as [ps|]; [|assumption].
    apply andb_true_iff in Hprops as [Hreq Hall]. split; [assumption|].
    now apply forallb_forall.
Qed.

Lemma protoFree_parts ty desc en its props req :
  protoFree (mkSchemaProperty ty desc en its props req) = true ->
  match its with Some it => protoFree it = true | None => True end
  /\ match props with
     | Some ps =>
         forall kp, In kp ps ->
                    fst kp <> "__proto__" /\ protoFree (snd kp) = true
     | None => True
     end.
Proof.
  cbn [protoFree]. intros H. apply andb_true_iff in H as [Hits Hprops]. split.
  - now destruct its.
  - destruct props as [ps|]; [|exact I].
    intros kp Hin. rewrite forallb_forall in Hprops.
    specialize (Hprops kp Hin). apply andb_true_iff in Hprops as [Hk Hp].
    split; [|assumption]. apply negb_true_iff in Hk.
    now apply String.eqb_neq.
Qed.

Lemma decodable_prop (o : list (string * Value)) (k : string) :
  forallb (fun kv => decodable (snd kv)) o = true ->
  hasOwn o k = true ->
  decodable (prop o k) = true.
Proof.
  intros Hall Hown. unfold hasOwn, prop in *.
  destruct (own o k) as [x|] eqn:E; [|discriminate].
  rewrite forallb_forall in Hall. exact (Hall (k, x) (own_In o k x E)).
Qed.

Lemma declared_own {A : Type} (ps : list (string * A)) (k : string) :
  hasOwn ps k = true -> exists a, own ps k = Some a.
Proof. unfold hasOwn. destruct (own ps k); [eauto|discriminate]. Qed.

(** A field of one of the five kinds that the validator accepted is
    there. *)
Lemma accepted_known_is_present (p : SchemaProperty) o k :
  knownKind p = true ->
  k <> "__proto__" ->
  accepts (convertPropertyToZod p) (read o k) = true ->
  hasOwn o k = true.
Proof.
  intros Hknown Hk Hacc. destruct (hasOwn o k) eqn:E; [reflexivity|].
  rewrite (read_absent o k E), known_rejects_inherited in Hacc by assumption.
  discriminate.
Qed.

(** What an accepted object says of a declared key other than
    [__proto__]. *)
Lemma accepted_entry (f : string * SchemaProperty -> ZodType) ps o kp :
  forallb (fun kp => String.eqb (fst kp) "__proto__"
                     || accepts (f kp) (read o (fst kp))) ps = true ->
  In kp ps ->
  fst kp <> "__proto__" ->
  accepts (f kp) (read o (fst kp)) = true.
Proof.
  intros Hall Hin Hk. rewrite forallb_forall in Hall.
  specialize (Hall kp Hin). apply String.eqb_neq in Hk.
  now rewrite Hk in Hall.
Qed.

Lemma accepts_conforms_nested (p : SchemaProperty) :
  forall v,
    wellFormed p = true ->
    closedSchema p = true ->
    protoFree p = true ->
    decodable v = true ->
    accepts (convertPropertyToZod p) v = true ->
    conforms p v = true.
Proof.
  induction p as [ty desc en its props req IHits IHprops]
    using SchemaProperty_nested_ind.
  intros v Hwf Hclosed Hfree Hjson Hacc.
  destruct (closedSchema_parts _ _ _ _ _ _ Hclosed) as [Hcits Hcprops].
  destruct (protoFree_parts _ _ _ _ _ _ Hfree) as [Hfits Hfprops].
  cbn [conforms convertPropertyToZod wellFormed] in *.
  apply andb_true_iff in Hwf as [Hwfi Hwfp].
  destruct (typeIs ty "string") eqn:Es.
  { destruct v; (discriminate || reflexivity). }
  destruct (typeIs ty "number") eqn:En.
  { destruct v; (discriminate || reflexivity). }
  destruct (typeIs ty "boolean") eqn:Eb.
  { destruct v; (discriminate || reflexivity). }
  destruct (typeIs ty "array") eqn:Ea.
  { destruct its as [it|]; destruct v as [| | | | |l|]; try discriminate;
      [|reflexivity].
    cbn [accepts decodable] in *. rewrite forallb_forall in *.
    intros x Hin. apply IHits; auto. }
  destruct (typeIs ty "object") eqn:Eo; [|reflexivity].
  destruct props as [ps|].
  - apply andb_true_iff in Hwfp as [Hd Hwfps].
    destruct Hcprops as [Hreq Hcps].
    rewrite (fold_assign_shape (fun kp => convertPropertyToZod (snd kp)))
      in Hacc by assumption.
    destruct v as [| | | | | |o]; try discriminate.
    rewrite accepts_shape in Hacc. cbn [decodable] in Hjson.
    rewrite forallb_forall in Hwfps.
    rewrite Forall_forall in IHprops.
    apply andb_true_iff. split; apply forallb_forall.
    + intros r Hr. unfold requiredDeclared in Hreq.
      rewrite forallb_forall in Hreq.
      destruct (declared_own ps r (Hreq r Hr)) as [field Hfield].
      apply own_In in Hfield.
      destruct (Hfprops _ Hfield) as [Hk _].
      apply (accepted_known_is_present field).
      * apply closedSchema_known. exact (Hcps _ Hfield).
      * exact Hk.
      * exact (accepted_entry _ ps o _ Hacc Hfield Hk).
    + intros kp Hin. destruct (hasOwn o (fst kp)) eqn:Eown; [|reflexivity].
      cbn [negb orb]. destruct (Hfprops _ Hin) as [Hk Hfree'].
      apply IHprops; auto.
      * now apply decodable_prop.
      * rewrite <- read_own by assumption.
        exact (accepted_entry _ ps o _ Hacc Hin Hk).
  - destruct v as [| | | | | |o]; try discriminate.
    unfold requiredDeclared in Hcprops.
    destruct (match req with Some l => l | None => [] end) as [|r rest];
      [reflexivity|discriminate].
Qed.

(** X11.  [validate] accepts only what satisfies the schema: for a
    well-formed object schema that stays inside the five kinds, requires
    only fields it declares and declares no field named [__proto__] at any
    level, a decoded value that [validate] accepts structurally satisfies
    the schema. *)
Theorem validate_accepts_only_conforming (tool : BaseTool) (v : Value) :
  typeIs (type (inputSchema tool)) "object" = true ->
  wellFormed (inputSchema tool) = true ->
  closedSchema (inputSchema tool) = true ->
  protoFree (inputSchema tool) = true ->
  decodable v = true ->
  validate tool v = true ->
  conforms (inputSchema tool) v = true.
Proof.
  intros Hty Hwf Hclosed Hfree Hjson. rewrite validate_accepts.
  destruct (wellFormed_entries _ Hwf) as [Hd Hwfps].
  rewrite jsonSchemaToZod_object by assumption.
  destruct (inputSchema tool) as [ty desc en its props req].
  destruct (closedSchema_parts _ _ _ _ _ _ Hclosed) as [_ Hcprops].
  destruct (protoFree_parts _ _ _ _ _ _ Hfree) as [_ Hfprops].
  cbn [type properties required] in *. kind_of Hty.
  cbn [conforms typeIs String.eqb Ascii.eqb Bool.eqb].
  destruct v as [| | | | | |o]; try discriminate.
  rewrite accepts_shape. cbn [decodable] in Hjson. intros Hacc.
  destruct props as [ps|]; cbn [entriesOrEmpty] in *.
  - destruct Hcprops as [Hreq Hcps].
    apply andb_true_iff. split; apply forallb_forall.
    + intros r Hr. unfold requiredDeclared in Hreq.
      rewrite forallb_forall in Hreq.
      destruct (declared_own ps r (Hreq r Hr)) as [field Hfield].
      apply own_In in Hfield.
      destruct (Hfprops _ Hfield) as [Hk _].
      pose proof (accepted_entry _ ps o _ Hacc Hfield Hk) as Hentry.
      unfold topLevelEntry in Hentry. cbn [fst snd required] in Hentry.
      assert (Hinc : requiredIncludes req r = true).
      { destruct req as [l|]; [|destruct Hr]. now apply existsb_eqb_In. }
      rewrite Hinc in Hentry. cbn [negb] in Hentry.
      apply (accepted_known_is_present field); [|assumption|assumption].
      apply closedSchema_known. exact (Hcps _ Hfield).
    + intros kp Hin. destruct (hasOwn o (fst kp)) eqn:Eown; [|reflexivity].
      cbn [negb orb]. pose proof (decodable_prop o _ Hjson Eown) as Hval.
      destruct (Hfprops _ Hin) as [Hk Hfree'].
      apply accepts_conforms_nested; auto.
      pose proof (accepted_entry _ ps o _ Hacc Hin Hk) as Hentry.
      rewrite read_own in Hentry by assumption.
      unfold topLevelEntry in Hentry.
      destruct (negb (requiredIncludes (required
                  (mkSchemaProperty (Some "object") desc en its (Some ps) req))
                  (fst kp))); [|exact Hentry].
      cbn [accepts] in Hentry. destruct (prop o (fst kp)); try exact Hentry.
      discriminate.
  - unfold requiredDeclared in Hcprops.
    destruct (match req with Some l => l | None => [] end) as [|r rest];
      [reflexivity|discriminate].
Qed.

Lemma validate_accepts_only_conforming_witness :
  let tool := toolWith (optionsSchema "string" None) in
  let v := VObject [("options", VObject [("units", VString "metric")])] in
  closedSchema (inputSchema tool) = true
  /\ protoFree (inputSchema tool) = true
  /\ decodable v = true
  /\ validate tool v = true
  /\ conforms (inputSchema tool) v = true.
Proof.
  cbv zeta.
  split; [reflexivity|split; [reflexivity|split; [reflexivity|
    split; [reflexivity|]]]].
  apply (validate_accepts_only_conforming
           (toolWith (optionsSchema "string" None))
           (VObject [("options", VObject [("units", VString "metric")])]));
    reflexivity.
Defined.

(* ================================================================== *)
(** * The logger *)

(** What [log] does with a message that passes the threshold. *)
Lemma log_written (stringify : Logger.LogContext -> string)
  (now : string) (level : Logger.LogLevel) (message : string)
  (context : option Logger.LogContext) (st : Logger.State) :
  (Logger.levelPriority (Logger.currentLevel st)
   <= Logger.levelPriority level)%nat ->
  Logger.log stringify now level message context st
  = {| Logger.currentLevel := Logger.currentLevel st;
       Logger.written :=
         Logger.written st
         ++ [(match level with
              | Logger.ERROR => Logger.console_error
              | Logger.WARNING => Logger.console_warn
              | _ => Logger.console_log
              end,
              let line :=
                "[" ^^ now ^^ "] ["
                ^^ Str.padEnd 7 (Str.toUpperCase (Logger.value level)) ^^ "] "
                ^^ message in
              match context with
              | Some ((_ :: _) as c) => line ^^ " " ^^ stringify c
              | _ => line
              end)] |}.
Proof.
  intros H. unfold Logger.log.
  destruct (Logger.levelPriority level
            <? Logger.levelPriority (Logger.currentLevel st))%nat eqn:E.
  { apply Nat.ltb_lt in E. lia. }
  destruct context as [[|kv c]|]; reflexivity.
Qed.

Lemma log_dropped (stringify : Logger.LogContext -> string)
  (now : string) (level : Logger.LogLevel) (message : string)
  (context : option Logger.LogContext) (st : Logger.State) :
  (Logger.levelPriority level
   < Logger.levelPriority (Logger.currentLevel st))%nat ->
  Logger.log stringify now level message context st = st.
Proof.
  intros H. unfold Logger.log.
  apply Nat.ltb_lt in H. now rewrite H.
Qed.

(** X12.  Lowering the level never loses a line: a line that a message
    adds to the console under one level is added under every level of the
    same or a lower priority (debug < info < warning < error), and a
    message that is dropped leaves the logger as it was. *)
Theorem lower_level_keeps_every_line
  (stringify : Logger.LogContext -> string) (now message : string)
  (level : Logger.LogLevel) (context : option Logger.LogContext)
  (st : Logger.State) (high low : Logger.LogLevel)
  (line : Logger.Console * string) :
  (Logger.levelPriority low <= Logger.levelPriority high)%nat ->
  (In line (Logger.written
              (Logger.log stringify now level message context
                 (Logger.setLevel high st)))
   -> In line (Logger.written
                 (Logger.log stringify now level message context
                    (Logger.setLevel low st))))
  /\ ((Logger.levelPriority level < Logger.levelPriority high)%nat ->
      Logger.log stringify now level message context (Logger.setLevel high st)
      = Logger.setLevel high st).
Proof.
  intros Hle. split.
  - destruct (Nat.lt_ge_cases (Logger.levelPriority level)
                (Logger.levelPriority high)) as [Hdrop|Hpass].
    + rewrite log_dropped by exact Hdrop. cbn [Logger.setLevel Logger.written].
      intros Hin.
      destruct (Nat.lt_ge_cases (Logger.levelPriority level)
                  (Logger.levelPriority low)) as [Hdrop'|Hpass'].
      * now rewrite log_dropped by exact Hdrop'.
      * rewrite log_written by exact Hpass'.
        cbn [Logger.setLevel Logger.written]. apply in_or_app. now left.
    + rewrite !log_written by (cbn [Logger.setLevel Logger.currentLevel]; lia).
      trivial.
  - intros Hdrop. now apply log_dropped.
Qed.

Lemma lower_level_keeps_every_line_witness :
  let stringify := fun _ : Logger.LogContext => "{}" in
  (Logger.levelPriority Logger.DEBUG <= Logger.levelPriority Logger.WARNING)%nat
  /\ Logger.log stringify "now" Logger.INFO "started" None
       (Logger.setLevel Logger.WARNING Logger.initial)
     = Logger.setLevel Logger.WARNING Logger.initial.
Proof.
  cbv zeta. split; [cbn; lia|].
  apply (proj2 (lower_level_keeps_every_line (fun _ => "{}") "now" "started"
                  Logger.INFO None Logger.initial Logger.WARNING Logger.DEBUG
                  (Logger.console_log, "")
                  ltac:(cbn; lia))).
  cbn. lia.
Defined.

(** X13.  An error is written whatever the level, on [console.error], and
    the level stays what it was; the line gives the time stamp, the tag
    [ERROR] padded to seven characters and the message. *)
Theorem errors_are_always_written
  (stringify : Logger.LogContext -> string) (now message : string)
  (error : option Logger.ErrorObject) (context : option Logger.LogContext)
  (st : Logger.State) :
  exists line,
    Logger.error stringify now message error context st
    = {| Logger.currentLevel := Logger.currentLevel st;
         Logger.written := Logger.written st ++ [(Logger.console_error, line)] |}
    /\ String.prefix ("[" ^^ now ^^ "] [ERROR  ] " ^^ message) line = true.
Proof.
  unfold Logger.error.
  match goal with
  | |- context [Logger.log _ _ _ _ (Some ?c) _] => generalize c
  end.
  intros logged. eexists. split.
  - rewrite log_written; [reflexivity|].
    destruct (Logger.currentLevel st); cbn; lia.
  - cbv zeta.
    assert (Hprefix : forall a b, String.prefix a (a ^^ b) = true).
    { induction a as [|c a IH]; intros b; cbn.
      - now destruct b.
      - destruct (Ascii.ascii_dec c c); [apply IH|contradiction]. }
    assert (Hrefl : forall a, String.prefix a a = true).
    { induction a as [|c a IH]; cbn; [reflexivity|].
      destruct (Ascii.ascii_dec c c); [apply IH|contradiction]. }
    destruct logged as [|kv rest]; [apply Hrefl|apply Hprefix].
Qed.

(** X14.  When [Logger.error] is given an error, the context it writes
    holds the error's message and name under [errorMessage] and
    [errorName] and, when the error has a stack, that stack under
    [stackTrace], whatever the caller's context had there; every other key
    of the caller's context is kept, and so is its [stackTrace] when the
    error has no stack.  The context is never empty, so the line always
    ends with it. *)
Theorem error_context_names_the_error
  (stringify : Logger.LogContext -> string) (now message : string)
  (e : Logger.ErrorObject) (context : option Logger.LogContext)
  (st : Logger.State) :
  exists logged : Logger.LogContext,
    Logger.written (Logger.error stringify now message (Some e) context st)
    = Logger.written st
      ++ [(Logger.console_error,
           ("[" ^^ now ^^ "] [ERROR  ] " ^^ message) ^^ " " ^^ stringify logged)]
    /\ own logged "errorMessage" = Some (VString (Logger.e_message e))
    /\ own logged "errorName" = Some (VString (Logger.e_name e))
    /\ own logged "stackTrace"
       = match Logger.e_stack e with
         | Some stack =>
             if String.eqb stack ""
             then own (entriesOrEmpty context) "stackTrace"
             else Some (VString stack)
         | None => own (entriesOrEmpty context) "stackTrace"
         end
    /\ forall k,
         k <> "errorMessage" -> k <> "errorName" -> k <> "stackTrace" ->
         own logged k = own (entriesOrEmpty context) k.
Proof.
  unfold Logger.error.
  set (c1 := JS.set (entriesOrEmpty context) "errorMessage"
               (VString (Logger.e_message e))).
  set (c2 := JS.set c1 "errorName" (VString (Logger.e_name e))).
  assert (H2 : own c2 "errorMessage" = Some (VString (Logger.e_message e))
               /\ own c2 "errorName" = Some (VString (Logger.e_name e))
               /\ forall k, k <> "errorMessage" -> k <> "errorName" ->
                            own c2 k = own (entriesOrEmpty context) k).
  { subst c2 c1. split; [|split].
    - rewrite own_set_other by discriminate. apply own_set_same.
    - apply own_set_same.
    - intros k H1 H2. rewrite !own_set_other by congruence. reflexivity. }
  destruct H2 as [Hm [Hn Hk]].
  assert (Hlog : forall logged : Logger.LogContext,
             own logged "errorName" = Some (VString (Logger.e_name e)) ->
             Logger.written
               (Logger.log stringify now Logger.ERROR message (Some logged) st)
             = Logger.written st
               ++ [(Logger.console_error,
                    ("[" ^^ now ^^ "] [ERROR  ] " ^^ message)
                    ^^ " " ^^ stringify logged)]).
  { intros logged Hown. rewrite log_written
      by (destruct (Logger.currentLevel st); cbn; lia).
    cbn [Logger.written]. destruct logged; [discriminate|reflexivity]. }
  assert (Hkept : own c2 "stackTrace"
                  = own (entriesOrEmpty context) "stackTrace").
  { apply Hk; discriminate. }
  destruct (Logger.e_stack e) as [stack|].
  - destruct (String.eqb stack ""); cbn [negb].
    + exists c2. split; [now apply Hlog|]. repeat split; auto.
    + exists (JS.set c2 "stackTrace" (VString stack)).
      split; [|split; [|split; [|split]]].
      * apply Hlog. now rewrite own_set_other by discriminate.
      * now rewrite own_set_other by discriminate.
      * now rewrite own_set_other by discriminate.
      * apply own_set_same.
      * intros k H1 H2 H3. rewrite own_set_other by congruence. now apply Hk.
  - exists c2. split; [now apply Hlog|]. repeat split; auto.
Qed.

Lemma error_context_names_the_error_witness :
  exists logged : Logger.LogContext,
    own logged "errorMessage" = Some (VString "boom")
    /\ own logged "stackTrace" = Some (VString "Error: boom at main")
    /\ own logged "requestId" = Some (VNumber 7).
Proof.
  destruct (error_context_names_the_error (fun _ => "{}") "now" "failed"
              (Logger.mkErrorObject "boom" "Error"
                 (Some "Error: boom at main"))
              (Some [("errorMessage", VString "from the caller");
                     ("stackTrace", VString "from the caller");
                     ("requestId", VNumber 7)])
              Logger.initial) as [logged [_ [Hm [_ [Hs Hk]]]]].
  exists logged. split; [exact Hm|]. split; [exact Hs|].
  rewrite Hk by discriminate. reflexivity.
Defined.

(* ================================================================== *)
(** * The configuration *)

Lemma toLowerCase_empty (s : string) :
  Str.toLowerCase s = "" -> s = "".
Proof. destruct s; [reflexivity|discriminate]. Qed.

Lemma valid_level_is_a_LogLevel (level : string) :
  existsb (String.eqb level) Config.validLevels = true ->
  exists l, Logger.value l = level.
Proof.
  cbn. intros H.
  repeat (apply orb_true_iff in H; destruct H as [H|H]);
    try discriminate; apply String.eqb_eq in H; subst.
  - now exists Logger.DEBUG.
  - now exists Logger.INFO.
  - now exists Logger.WARNING.
  - now exists Logger.ERROR.
Qed.

(** X15.  When [validateConfiguration] returns, the values [main] goes on
    to use are sound: the log level is one of the four levels of the
    logger (so the cast to [LogLevel] is right), and the port is an
    integer between 1 and 65535, 3000 when [PORT] is not set. *)
Theorem validated_configuration_is_usable (env : Config.Env) :
  fst (Config.validateConfiguration env) = inr tt ->
  (exists level, Logger.value level = Config.logLevel env)
  /\ (exists n, Config.port env = Some n /\ (1 <= n <= 65535)%Z)
  /\ (Config.unset (Config.PORT env) = true -> Config.port env = Some 3000%Z).
Proof.
  unfold Config.validateConfiguration, Config.logLevel, Config.port.
  destruct env as [level port key]. cbn [Config.LOG_LEVEL Config.PORT].
  intros H.
  assert (Hlevel :
            match level with
            | Some given =>
                Config.unset (Some given) = true
                \/ existsb (String.eqb (Str.toLowerCase given))
                     Config.validLevels = true
            | None => True
            end).
  { destruct level as [given|]; [|exact I].
    destruct (Config.unset (Some given)); [now left|right].
    destruct (existsb (String.eqb (Str.toLowerCase given))
                Config.validLevels); [reflexivity|].
    cbn [negb app] in H.
    destruct port as [p|]; [|discriminate H].
    destruct (Config.unset (Some p)); [discriminate H|].
    destruct (match Str.parseInt p with
              | Some n => (n <? 1)%Z || (65535 <? n)%Z
              | None => true
              end); discriminate H. }
  assert (Hport :
            match port with
            | Some given =>
                Config.unset (Some given) = true
                \/ exists n, Str.parseInt given = Some n
                             /\ (1 <= n <= 65535)%Z
            | None => True
            end).
  { destruct port as [given|]; [|exact I].
    destruct (Config.unset (Some given)); [now left|right].
    destruct (Str.parseInt given) as [n|].
    - exists n. split; [reflexivity|].
      destruct ((n <? 1)%Z || (65535 <? n)%Z) eqn:E.
      + exfalso. revert H.
        destruct level as [l|]; [|discriminate].
        destruct (Config.unset (Some l)); [discriminate|].
        destruct (negb (existsb (String.eqb (Str.toLowerCase l))
                          Config.validLevels)); discriminate.
      + apply orb_false_iff in E as [E1 E2].
        apply Z.ltb_ge in E1. apply Z.ltb_ge in E2. lia.
    - exfalso. revert H.
      destruct level as [l|]; [|discriminate].
      destruct (Config.unset (Some l)); [discriminate|].
      destruct (negb (existsb (String.eqb (Str.toLowerCase l))
                        Config.validLevels)); discriminate. }
  clear H. split; [|split].
  - destruct level as [given|]; [|now exists Logger.INFO].
    cbn [option_map Config.orElse].
    destruct (String.eqb (Str.toLowerCase given) "") eqn:E;
      [now exists Logger.INFO|].
    destruct Hlevel as [Hunset|Hvalid];
      [|now apply valid_level_is_a_LogLevel].
    cbn [Config.unset] in Hunset. apply String.eqb_eq in Hunset. subst given.
    discriminate E.
  - destruct port as [given|]; [|exists 3000%Z; split; [reflexivity|lia]].
    cbn [Config.orElse].
    destruct Hport as [Hunset|Hvalid].
    + cbn [Config.unset] in Hunset. rewrite Hunset.
      exists 3000%Z. split; [reflexivity|lia].
    + destruct (String.eqb given "") eqn:E; [|exact Hvalid].
      exists 3000%Z. split; [reflexivity|lia].
  - intros Hunset. destruct port as [given|]; [|reflexivity].
    cbn [Config.unset] in Hunset. cbn [Config.orElse]. now rewrite Hunset.
Qed.

Lemma validated_configuration_is_usable_witness :
  let env := {| Config.LOG_LEVEL := Some "Warning";
                Config.PORT := Some " 8080/tcp";
                Config.WEATHER_API_KEY := None |} in
  fst (Config.validateConfiguration env) = inr tt
  /\ Config.logLevel env = "warning"
  /\ exists n, Config.port env = Some n /\ (1 <= n <= 65535)%Z.
Proof.
  cbv zeta. split; [reflexivity|split; [reflexivity|]].
  exact (proj1 (proj2 (validated_configuration_is_usable
                         {| Config.LOG_LEVEL := Some "Warning";
                            Config.PORT := Some " 8080/tcp";
                            Config.WEATHER_API_KEY := None |} eq_refl))).
Defined.

(** X16.  [WEATHER_API_KEY] never decides whether the configuration is
    accepted: its absence is answered with two warnings and nothing else,
    its presence with none. *)
Theorem api_key_only_warns (level port key : option string) :
  fst (Config.validateConfiguration
         {| Config.LOG_LEVEL := level; Config.PORT := port;
            Config.WEATHER_API_KEY := key |})
  = fst (Config.validateConfiguration
           {| Config.LOG_LEVEL := level; Config.PORT := port;
              Config.WEATHER_API_KEY := None |})
  /\ length (snd (Config.validateConfiguration
                    {| Config.LOG_LEVEL := level; Config.PORT := port;
                       Config.WEATHER_API_KEY := key |}))
     = if Config.unset key then 2%nat else 0%nat.
Proof.
  unfold Config.validateConfiguration.
  cbn [Config.LOG_LEVEL Config.PORT Config.WEATHER_API_KEY].
  match goal with
  | |- context [(0 <? length ?errors)%nat] =>
      destruct (0 <? length errors)%nat
  end; (split; [reflexivity|]); now destruct (Config.unset key).
Qed.

(** X17.  [validateConfiguration] reports everything it finds at once:
    when both [LOG_LEVEL] and [PORT] are set and wrong, the error it
    throws has one line for each, the level first. *)
Theorem configuration_errors_are_collected (level port : string)
  (key : option string) :
  level <> "" -> port <> "" ->
  existsb (String.eqb (Str.toLowerCase level)) Config.validLevels = false ->
  match Str.parseInt port with
  | Some n => (n < 1 \/ 65535 < n)%Z
  | None => True
  end ->
  fst (Config.validateConfiguration
         {| Config.LOG_LEVEL := Some level; Config.PORT := Some port;
            Config.WEATHER_API_KEY := key |})
  = inl (Throw Error
           ("Configuration validation failed:" ^^ Str.newline
            ^^ ("Invalid LOG_LEVEL: " ^^ level
                ^^ ". Must be one of: debug, info, warning, error")
            ^^ Str.newline
            ^^ ("Invalid PORT: " ^^ port
                ^^ ". Must be a number between 1 and 65535"))).
Proof.
  intros Hl Hp Hlevel Hport. unfold Config.validateConfiguration.
  cbn [Config.LOG_LEVEL Config.PORT Config.unset].
  apply String.eqb_neq in Hl, Hp. rewrite Hl, Hp, Hlevel. cbn [negb app].
  assert (Hbad : match Str.parseInt port with
                 | Some n => (n <? 1)%Z || (65535 <? n)%Z
                 | None => true
                 end = true).
  { destruct (Str.parseInt port) as [n|]; [|reflexivity].
    apply orb_true_iff. destruct Hport; [left|right]; now apply Z.ltb_lt. }
  rewrite Hbad. reflexivity.
Qed.

Lemma configuration_errors_are_collected_witness :
  exists message,
    fst (Config.validateConfiguration
           {| Config.LOG_LEVEL := Some "verbose"; Config.PORT := Some "http";
              Config.WEATHER_API_KEY := Some "k" |})
    = inl (Throw Error message).
Proof.
  eexists.
  apply (configuration_errors_are_collected "verbose" "http" (Some "k"));
    [discriminate|discriminate|reflexivity|exact I].
Defined.

(* ================================================================== *)
(** * The name of a task document *)

Ltac by_character c :=
  destruct c as [[] [] [] [] [] [] [] []]; try reflexivity; try discriminate.

Lemma lowerChar_safe (c : ascii) :
  DocumentationGenerator.safeChar c = true -> Str.lowerChar c = c.
Proof. by_character c. Qed.

Lemma safe_not_space (c : ascii) :
  DocumentationGenerator.safeChar c = true ->
  Str.isSpace c = false ->
  DocumentationGenerator.nameChar c = true.
Proof. by_character c. Qed.

Lemma nameChar_facts (c : ascii) :
  DocumentationGenerator.nameChar c = true ->
  DocumentationGenerator.safeChar c = true /\ Str.isSpace c = false.
Proof. by_character c; split; reflexivity. Qed.

Lemma removeUnless_all (keep : ascii -> bool) (s : string) :
  Str.allChars keep (Str.removeUnless keep s) = true.
Proof.
  induction s as [|c rest IH]; cbn; [reflexivity|].
  destruct (keep c) eqn:E; cbn; [now rewrite E|assumption].
Qed.

Lemma replaceRuns_space_chars (s : string) :
  forall inRun,
    Str.allChars DocumentationGenerator.safeChar s = true ->
    Str.allChars DocumentationGenerator.nameChar (Str.replaceRuns Str.isSpace inRun s) = true.
Proof.
  induction s as [|c rest IH]; intros inRun H; cbn in *; [reflexivity|].
  apply andb_true_iff in H as [Hc Hrest].
  destruct (Str.isSpace c) eqn:E.
  - destruct inRun; [now apply IH|].
    cbn [Str.allChars]. now rewrite IH.
  - cbn [Str.allChars]. now rewrite (safe_not_space c Hc E), IH.
Qed.

Lemma replaceRuns_hyphen_chars (s : string) :
  forall inRun,
    Str.allChars DocumentationGenerator.nameChar s = true ->
    Str.allChars DocumentationGenerator.nameChar (Str.replaceRuns Str.isHyphen inRun s) = true.
Proof.
  induction s as [|c rest IH]; intros inRun H; cbn in *; [reflexivity|].
  apply andb_true_iff in H as [Hc Hrest].
  destruct (Str.isHyphen c) eqn:E.
  - destruct inRun; [now apply IH|].
    cbn [Str.allChars]. now rewrite IH.
  - cbn [Str.allChars]. now rewrite Hc, IH.
Qed.

Lemma noHyphenRun_cons (c d : ascii) (tail : string) :
  Str.noHyphenRun (String c (String d tail))
  = negb (Str.isHyphen c && Str.isHyphen d)
    && Str.noHyphenRun (String d tail).
Proof. reflexivity. Qed.

Lemma replaceRuns_hyphen_runs (s : string) :
  forall inRun,
    Str.noHyphenRun (Str.replaceRuns Str.isHyphen inRun s) = true
    /\ (inRun = true ->
        Str.noLeadingHyphen (Str.replaceRuns Str.isHyphen inRun s) = true).
Proof.
  induction s as [|c rest IH]; intros inRun; [now split|].
  cbn [Str.replaceRuns]. destruct (Str.isHyphen c) eqn:E.
  - destruct inRun.
    + apply IH.
    + destruct (IH true) as [Hruns Hlead]. specialize (Hlead eq_refl).
      split; [|discriminate].
      destruct (Str.replaceRuns Str.isHyphen true rest) as [|d tail];
        [reflexivity|].
      cbn [Str.noLeadingHyphen] in Hlead. apply negb_true_iff in Hlead.
      rewrite noHyphenRun_cons, Hruns, Hlead.
      now rewrite andb_false_r.
  - destruct (IH false) as [Hruns _]. split.
    + destruct (Str.replaceRuns Str.isHyphen false rest) as [|d tail];
        [reflexivity|].
      now rewrite noHyphenRun_cons, E, Hruns.
    + intros _. cbn [Str.noLeadingHyphen]. now rewrite E.
Qed.

Lemma trim_without_spaces (s : string) :
  Str.allChars (fun c => negb (Str.isSpace c)) s = true -> Str.trim s = s.
Proof.
  intros H. unfold Str.trim.
  assert (Hstart : Str.trimStart s = s).
  { destruct s as [|c rest]; [reflexivity|].
    cbn in *. apply andb_true_iff in H as [Hc _].
    apply negb_true_iff in Hc. now rewrite Hc. }
  rewrite Hstart. clear Hstart.
  induction s as [|c rest IH]; [reflexivity|].
  cbn in *. apply andb_true_iff in H as [Hc Hrest].
  rewrite (IH Hrest). apply negb_true_iff in Hc. rewrite Hc.
  now destruct rest.
Qed.

Lemma allChars_weaken (p q : ascii -> bool) (s : string) :
  (forall c, p c = true -> q c = true) ->
  Str.allChars p s = true -> Str.allChars q s = true.
Proof.
  intros Hpq. induction s as [|c rest IH]; cbn; [reflexivity|].
  intros H. apply andb_true_iff in H as [Hc Hrest].
  now rewrite (Hpq c Hc), IH.
Qed.

Lemma nameChars_no_spaces (s : string) :
  Str.allChars DocumentationGenerator.nameChar s = true ->
  Str.allChars (fun c => negb (Str.isSpace c)) s = true.
Proof.
  apply allChars_weaken. intros c Hc.
  destruct (nameChar_facts c Hc) as [_ E]. now rewrite E.
Qed.

(** X18.  The sanitized part of a document name is made of lower-case
    letters, digits and hyphens only, and never has two hyphens in a row,
    whatever the task name is; the closing [trim] changes nothing. *)
Theorem sanitized_name_is_safe (taskName : string) :
  Str.allChars DocumentationGenerator.nameChar (DocumentationGenerator.sanitized taskName) = true
  /\ Str.noHyphenRun (DocumentationGenerator.sanitized taskName) = true
  /\ DocumentationGenerator.sanitized taskName
     = Str.replaceRuns Str.isHyphen false
         (Str.replaceRuns Str.isSpace false
            (Str.removeUnless DocumentationGenerator.safeChar
               (Str.toLowerCase taskName))).
Proof.
  unfold DocumentationGenerator.sanitized.
  set (kept := Str.removeUnless DocumentationGenerator.safeChar
                 (Str.toLowerCase taskName)).
  assert (Hchars : Str.allChars DocumentationGenerator.nameChar
                     (Str.replaceRuns Str.isHyphen false
                        (Str.replaceRuns Str.isSpace false kept)) = true).
  { apply replaceRuns_hyphen_chars, replaceRuns_space_chars.
    apply removeUnless_all. }
  rewrite trim_without_spaces by now apply nameChars_no_spaces.
  split; [exact Hchars|split; [|reflexivity]].
  apply replaceRuns_hyphen_runs.
Qed.

Lemma mapChars_fixed (f : ascii -> ascii) (p : ascii -> bool) (s : string) :
  (forall c, p c = true -> f c = c) ->
  Str.allChars p s = true -> Str.mapChars f s = s.
Proof.
  intros Hf. induction s as [|c rest IH]; cbn; [reflexivity|].
  intros H. apply andb_true_iff in H as [Hc Hrest].
  now rewrite (Hf c Hc), IH.
Qed.

Lemma removeUnless_fixed (keep : ascii -> bool) (s : string) :
  Str.allChars keep s = true -> Str.removeUnless keep s = s.
Proof.
  induction s as [|c rest IH]; cbn; [reflexivity|].
  intros H. apply andb_true_iff in H as [Hc Hrest].
  now rewrite Hc, IH.
Qed.

Lemma replaceRuns_absent (inClass : ascii -> bool) (s : string) :
  forall inRun,
    Str.allChars (fun c => negb (inClass c)) s = true ->
    Str.replaceRuns inClass inRun s = s.
Proof.
  induction s as [|c rest IH]; intros inRun H; cbn in *; [reflexivity|].
  apply andb_true_iff in H as [Hc Hrest].
  apply negb_true_iff in Hc. now rewrite Hc, IH.
Qed.

Lemma replaceRuns_hyphen_fixed (s : string) :
  forall inRun,
    Str.noHyphenRun s = true ->
    (inRun = true -> Str.noLeadingHyphen s = true) ->
    Str.replaceRuns Str.isHyphen inRun s = s.
Proof.
  induction s as [|c rest IH]; intros inRun Hruns Hlead; [reflexivity|].
  cbn [Str.replaceRuns]. destruct (Str.isHyphen c) eqn:E.
  - destruct inRun.
    + specialize (Hlead eq_refl). cbn [Str.noLeadingHyphen] in Hlead.
      rewrite E in Hlead. discriminate.
    + unfold Str.hyphen.
      assert (Hc : c = ascii_of_nat 45).
      { revert E. clear. by_character c. }
      rewrite <- Hc. f_equal. apply IH.
      * destruct rest as [|d tail]; [reflexivity|].
        rewrite noHyphenRun_cons in Hruns.
        now apply andb_true_iff in Hruns as [_ Hruns].
      * intros _. destruct rest as [|d tail]; [reflexivity|].
        rewrite noHyphenRun_cons, E in Hruns.
        apply andb_true_iff in Hruns as [Hcd _]. exact Hcd.
  - f_equal. apply IH.
    + destruct rest as [|d tail]; [reflexivity|].
      rewrite noHyphenRun_cons in Hruns.
      now apply andb_true_iff in Hruns as [_ Hruns].
    + discriminate.
Qed.

(** X19.  Sanitizing is idempotent: a sanitized name is its own sanitized
    form, so a document name can be fed back as a task name. *)
Theorem sanitized_is_idempotent (taskName : string) :
  DocumentationGenerator.sanitized (DocumentationGenerator.sanitized taskName)
  = DocumentationGenerator.sanitized taskName.
Proof.
  assert (Hchars : Str.allChars DocumentationGenerator.nameChar
                     (DocumentationGenerator.sanitized taskName) = true).
  { unfold DocumentationGenerator.sanitized.
    set (kept := Str.removeUnless DocumentationGenerator.safeChar
                   (Str.toLowerCase taskName)).
    assert (H : Str.allChars DocumentationGenerator.nameChar
                  (Str.replaceRuns Str.isHyphen false
                     (Str.replaceRuns Str.isSpace false kept)) = true).
    { apply replaceRuns_hyphen_chars, replaceRuns_space_chars.
      apply removeUnless_all. }
    now rewrite trim_without_spaces by now apply nameChars_no_spaces. }
  assert (Hruns : Str.noHyphenRun
                    (DocumentationGenerator.sanitized taskName) = true).
  { unfold DocumentationGenerator.sanitized.
    set (kept := Str.removeUnless DocumentationGenerator.safeChar
                   (Str.toLowerCase taskName)).
    assert (H : Str.allChars DocumentationGenerator.nameChar
                  (Str.replaceRuns Str.isHyphen false
                     (Str.replaceRuns Str.isSpace false kept)) = true).
    { apply replaceRuns_hyphen_chars, replaceRuns_space_chars.
      apply removeUnless_all. }
    rewrite trim_without_spaces by now apply nameChars_no_spaces.
    apply replaceRuns_hyphen_runs. }
  generalize dependent (DocumentationGenerator.sanitized taskName).
  intros name Hchars Hruns. unfold DocumentationGenerator.sanitized.
  assert (Hsafe : Str.allChars DocumentationGenerator.safeChar name = true).
  { revert Hchars. apply allChars_weaken. intros c Hc.
    now destruct (nameChar_facts c Hc). }
  unfold Str.toLowerCase.
  rewrite (mapChars_fixed _ DocumentationGenerator.safeChar)
    by (exact lowerChar_safe || assumption).
  rewrite removeUnless_fixed by assumption.
  rewrite (replaceRuns_absent Str.isSpace) by now apply nameChars_no_spaces.
  rewrite replaceRuns_hyphen_fixed by (assumption || discriminate).
  now apply trim_without_spaces, nameChars_no_spaces.
Qed.
